(** * Swing-reversion grid strategy and its backtest driver

    A shallow embedding of
      - [swing-reversion-strategy/your_strategy.py] (class
        [SwingReversionStrategy]) and
      - [reports/backtest_runner.py] ([BacktestExchange], [run_backtest]),
    followed by the properties of the strategy engine and of the driver.

    The code is embedded twice, the two embeddings differing in what a
    Python [float] is.
      - In the first part a float is a rational ([Q]): every comparison and
        every branch of the source is kept, the arithmetic is exact
        (rounding, infinities and NaN are outside it), and equality of
        computed numbers is [Qeq] ([==]).  It carries the properties about
        the structure of the code: which attributes a call touches, the
        list objects and their sharing, the order of the branches, the
        snapshots and the loop.
      - In the module [Doubles] a float is an IEEE 754 binary64 number
        (Rocq's primitive [float]): every operation rounds as Python's
        does, a quotient raises only on a zero divisor, and a comparison
        with a NaN is false.  It carries the properties that depend on what
        a test gives at its threshold or after an overflow.

    Conventions common to both.
      - Python [int] values are [Z]; [int(x)] truncates toward zero.
      - A Python exception is a [Raise] result.  A call on an object returns
        the object as the call left it together with the result, so that
        what was assigned before a [raise] stays assigned.
      - Python lists are objects: the strategy's [active_positions] attribute
        holds a reference into a store of lists ([Heap]); [append] updates
        the list in place, an assignment of [[]] binds a new list. *)

From Stdlib Require Import QArith Qround Qabs Qminmax Lqa ZArith String.
From Stdlib Require Import DecimalString.
From Stdlib Require Import Floats.
From stdpp Require Import gmap strings list.

Local Open Scope Q_scope.

(** ** Numbers *)

(** [x < y], [x > y] and [x >= y] on floats, as tests. *)
Definition Qltb (x y : Q) : bool := negb (Qle_bool y x).
Definition Qgtb (x y : Q) : bool := Qltb y x.
Definition Qgeb (x y : Q) : bool := Qle_bool y x.

(** [int(x)] for a float [x]: the integer part, rounding toward zero. *)
Definition int_of_float (x : Q) : Z :=
  if Qle_bool 0 x then Qfloor x else Qceiling x.

(** [str(n)] for an int [n], as an f-string formats it. *)
Definition str_of_int (n : Z) : string :=
  NilZero.string_of_int (Z.to_int n).

(** ** Exceptions *)

Inductive Exn : Type :=
| ZeroDivisionError
| StatisticsError
| IndexError.

Inductive Result (A : Type) : Type :=
| Ok (a : A)
| Raise (e : Exn).

Arguments Ok {A} a.
Arguments Raise {A} e.

#[global] Instance Result_ret : MRet Result := @Ok.
#[global] Instance Result_bind : MBind Result :=
  fun A B f r => match r with Ok a => f a | Raise e => Raise e end.

(** [x / y] on floats. *)
Definition fdiv (x y : Q) : Result Q :=
  if Qeq_bool y 0 then Raise ZeroDivisionError else Ok (x / y).

(** [sum(xs)]: starts from [0] and adds from the left. *)
Definition pysum (xs : list Q) : Q := fold_left Qplus xs 0.

(** [statistics.mean(xs)]. *)
Definition mean (xs : list Q) : Result Q :=
  match xs with
  | [] => Raise StatisticsError
  | _ => Ok (pysum xs / inject_Z (Z.of_nat (length xs)))
  end.

(** [xs[k:]] for an int [k], with Python's treatment of a negative or an
    out-of-range start. *)
Definition slice_from {A : Type} (xs : list A) (k : Z) : list A :=
  let len := Z.of_nat (length xs) in
  let start := if (k <? 0)%Z then Z.max (len + k) 0 else Z.min k len in
  drop (Z.to_nat start) xs.

(** [xs[-1]]. *)
Definition last_item {A : Type} (xs : list A) : Result A :=
  match last xs with
  | Some x => Ok x
  | None => Raise IndexError
  end.

(** ** Data model *)

Inductive Action : Type := Buy | Sell | Hold.

#[global] Instance Action_eq_dec : EqDecision Action.
Proof. solve_decision. Defined.

(** Modelled from the spec: [Signal] is declared in the base template's
    [strategy_interface], which is not part of the sources.  The spec gives
    it an action among buy, sell and hold, a size that is [0] for hold, and
    an optional reason. *)
Record Signal : Type := mkSignal {
  sig_action : Action;
  sig_size : Q;
  sig_reason : option string
}.

(** [Signal("hold")], [Signal("hold", reason=r)] and
    [Signal(a, size=s, reason=r)]. *)
Definition Signal_hold : Signal := mkSignal Hold 0 None.
Definition Signal_hold_reason (r : string) : Signal := mkSignal Hold 0 (Some r).
Definition Signal_sized (a : Action) (s : Q) (r : string) : Signal :=
  mkSignal a s (Some r).

(** Modelled from the spec: [Portfolio] is declared in [strategy_interface]
    too; it holds the symbol, the cash and the quantity held. *)
Record Portfolio : Type := mkPortfolio {
  pf_symbol : string;
  cash : Q;
  quantity : Q
}.

(** Modelled from the spec: [Portfolio.value(current_price)], the
    mark-to-market value [cash + quantity * current_price]. *)
Definition value (p : Portfolio) (current_price : Q) : Q :=
  cash p + quantity p * current_price.

(** Modelled from the spec: [MarketSnapshot] is declared in the base
    template's [exchange_interface]; it has the four fields the spec lists
    and [fetch_market_snapshot] fills in.  Timestamps are integers. *)
Record MarketSnapshot : Type := mkMarketSnapshot {
  ms_symbol : string;
  prices : list Q;
  current_price : Q;
  ms_timestamp : Z
}.

(** An entry of [active_positions]: [{'price': ..., 'size': ...}]. *)
Record Position : Type := mkPosition {
  pos_price : Q;
  pos_size : Q
}.

(** The store of list objects. *)
Abbreviation loc := positive (only parsing).
Abbreviation Heap := (gmap positive (list Position)) (only parsing).

(** The list a reference denotes. *)
Definition deref (h : Heap) (l : loc) : list Position := default [] (h !! l).

(** [[]]: a new, empty list object. *)
Definition alloc_list (h : Heap) : Heap * loc :=
  let l := fresh (dom h) in (<[l := []]> h, l).

(** ** The strategy engine *)

(** The attributes of a [SwingReversionStrategy] object. *)
Record Strategy : Type := mkStrategy {
  ma_period : Z;
  grid_step_pct : Q;
  max_grid_levels : Z;
  position_size_pct : Q;
  stop_loss_pct : Q;
  take_profit_above_sma_pct : Q;
  trailing_stop_activation_pct : Q;
  trailing_stop_callback_pct : Q;
  active_positions : loc;
  last_signal_time : option Z;
  trailing_high : Q
}.

Definition set_trailing_high (v : Q) (self : Strategy) : Strategy :=
  mkStrategy (ma_period self) (grid_step_pct self) (max_grid_levels self)
    (position_size_pct self) (stop_loss_pct self)
    (take_profit_above_sma_pct self) (trailing_stop_activation_pct self)
    (trailing_stop_callback_pct self)
    (active_positions self) (last_signal_time self) v.

Definition set_active_positions (l : loc) (self : Strategy) : Strategy :=
  mkStrategy (ma_period self) (grid_step_pct self) (max_grid_levels self)
    (position_size_pct self) (stop_loss_pct self)
    (take_profit_above_sma_pct self) (trailing_stop_activation_pct self)
    (trailing_stop_callback_pct self)
    l (last_signal_time self) (trailing_high self).

(** The configuration dictionary, with numbers as values;
    [config.get(key, dflt)]. *)
Definition config_get (config : gmap string Q) (key : string) (dflt : Q) : Q :=
  default dflt (config !! key).

(** [SwingReversionStrategy.__init__]. *)
Definition init (h : Heap) (config : gmap string Q) : Heap * Strategy :=
  let '(h', l) := alloc_list h in
  (h',
   mkStrategy
     (int_of_float (config_get config "ma_period" 24))
     (config_get config "grid_step_pct" 0.01)
     (int_of_float (config_get config "max_grid_levels" 2))
     (config_get config "position_size_pct" 0.275)
     (config_get config "stop_loss_pct" 0.15)
     (config_get config "take_profit_above_sma_pct" 0.50)
     (config_get config "trailing_stop_activation_pct" 0.025)
     (config_get config "trailing_stop_callback_pct" 0.035)
     l None 0).

(** The trailing-high update of [generate_signal]. *)
Definition update_trailing_high
    (self : Strategy) (current_price : Q) (portfolio : Portfolio) : Strategy :=
  if Qgtb (quantity portfolio) 0 then
    if Qgtb current_price (trailing_high self)
    then set_trailing_high current_price self
    else self
  else set_trailing_high 0 self.

(** The trailing-stop test of [generate_signal] (section 1 of the method):
    [true] when the method returns the "Trailing Stop Hit" sell there. *)
Definition trailing_stop_hit
    (positions : list Position) (self : Strategy)
    (current_price : Q) (portfolio : Portfolio) : Result bool :=
  if Qgtb (quantity portfolio) 0 then
    let total_size := pysum (pos_size <$> positions) in
    if Qgtb total_size 0 then
      avg_entry ← fdiv (pysum ((λ p, pos_price p * pos_size p) <$> positions))
                       total_size;
      if Qgtb (trailing_high self)
              (avg_entry * (1 + trailing_stop_activation_pct self)) then
        if Qltb current_price
                (trailing_high self * (1 - trailing_stop_callback_pct self))
        then Ok true
        else Ok false
      else Ok false
    else Ok false
  else Ok false.

(** The [for pos in self.active_positions] loop: [true] when it returns the
    "Position already exists at this level" hold. *)
Fixpoint position_near
    (self : Strategy) (current_price : Q) (positions : list Position)
    : Result bool :=
  match positions with
  | [] => Ok false
  | pos :: rest =>
      price_diff_pct ← fdiv (Qabs (pos_price pos - current_price)) (pos_price pos);
      if Qltb price_diff_pct (grid_step_pct self * 0.5) then Ok true
      else position_near self current_price rest
  end.

(** The grid entry of [generate_signal], entered when [deviation < 0]. *)
Definition grid_entry
    (positions : list Position) (self : Strategy)
    (current_price deviation : Q) (portfolio : Portfolio) : Result Signal :=
  steps ← fdiv (Qabs deviation) (grid_step_pct self);
  let level_idx := int_of_float steps in
  if (level_idx <? 1)%Z then Ok Signal_hold
  else
    let level_idx :=
      if (level_idx >? max_grid_levels self)%Z then max_grid_levels self
      else level_idx in
    position_near self current_price positions ≫= λ near : bool,
    if near then Ok (Signal_hold_reason "Position already exists at this level")
    else
      let total_equity := cash portfolio + quantity portfolio * current_price in
      current_exposure ← fdiv (quantity portfolio * current_price) total_equity;
      if Qgeb current_exposure 0.55 then
        Ok (Signal_hold_reason "Max exposure reached")
      else
        let buy_amount_usd := total_equity * position_size_pct self in
        let buy_amount_usd :=
          if Qltb (cash portfolio) buy_amount_usd then cash portfolio
          else buy_amount_usd in
        if Qltb buy_amount_usd 10 then
          Ok (Signal_hold_reason "Insufficient cash")
        else
          size ← fdiv buy_amount_usd current_price;
          Ok (Signal_sized Buy size ("Grid Buy Level " +:+ str_of_int level_idx)).

(** What [generate_signal] does after the trailing-high update. *)
Definition decide_signal
    (positions : list Position) (self : Strategy)
    (current_price deviation : Q) (portfolio : Portfolio) : Result Signal :=
  trailing_stop_hit positions self current_price portfolio ≫= λ hit : bool,
  if hit then
    Ok (Signal_sized Sell (quantity portfolio) "Trailing Stop Hit")
  else if Qgtb deviation (take_profit_above_sma_pct self)
          && Qgtb (quantity portfolio) 0 then
    Ok (Signal_sized Sell (quantity portfolio) "Mean Reversion: Target Hit")
  else if Qltb deviation 0 then
    grid_entry positions self current_price deviation portfolio
  else Ok Signal_hold.

(** [SwingReversionStrategy.generate_signal]: the object after the call and
    the signal returned or the exception raised. *)
Definition generate_signal
    (h : Heap) (self : Strategy) (market : MarketSnapshot)
    (portfolio : Portfolio) : Strategy * Result Signal :=
  if (Z.of_nat (length (prices market)) <? ma_period self)%Z then
    (self, Ok Signal_hold)
  else
    let current_price := current_price market in
    match mean (slice_from (prices market) (- ma_period self)) with
    | Raise e => (self, Raise e)
    | Ok sma =>
        match fdiv (current_price - sma) sma with
        | Raise e => (self, Raise e)
        | Ok deviation =>
            let self := update_trailing_high self current_price portfolio in
            (self,
             decide_signal (deref h (active_positions self)) self
               current_price deviation portfolio)
        end
    end.

(** [SwingReversionStrategy.on_trade]. *)
Definition on_trade
    (h : Heap) (self : Strategy) (signal : Signal)
    (execution_price execution_size : Q) (timestamp : Z) : Heap * Strategy :=
  match sig_action signal with
  | Buy =>
      let l := active_positions self in
      (<[l := deref h l ++ [mkPosition execution_price execution_size]]> h,
       self)
  | Sell =>
      let '(h', l) := alloc_list h in
      (h', set_active_positions l self)
  | Hold => (h, self)
  end.

(** The mapping [get_state] returns and [set_state] reads: each of its two
    keys present or absent.  The value under [active_positions] is the list
    object itself (a reference), not a copy of it. *)
Record StateDict : Type := mkStateDict {
  sd_active_positions : option loc;
  sd_trailing_high : option Q
}.

(** [SwingReversionStrategy.get_state]. *)
Definition get_state (self : Strategy) : StateDict :=
  mkStateDict (Some (active_positions self)) (Some (trailing_high self)).

(** [SwingReversionStrategy.set_state].  The default [[]] of
    [state.get("active_positions", [])] is a new list object; it is recorded
    in the store only when it is the one that gets bound. *)
Definition set_state (h : Heap) (self : Strategy) (state : StateDict)
    : Heap * Strategy :=
  let '(h', l) :=
    match sd_active_positions state with
    | Some l => (h, l)
    | None => alloc_list h
    end in
  (h',
   set_trailing_high (default 0 (sd_trailing_high state))
     (set_active_positions l self)).

(** A call made on a strategy object by its host, and the calls of a
    sequence applied in order; the result lists what each
    [generate_signal] call returned or raised. *)
Inductive Call : Type :=
| CallGenerateSignal (market : MarketSnapshot) (portfolio : Portfolio)
| CallOnTrade (signal : Signal) (execution_price execution_size : Q)
              (timestamp : Z).

Fixpoint run_calls (h : Heap) (self : Strategy) (calls : list Call)
    : Heap * Strategy * list (Result Signal) :=
  match calls with
  | [] => (h, self, [])
  | CallGenerateSignal market portfolio :: rest =>
      let '(self', r) := generate_signal h self market portfolio in
      let '(h'', self'', rs) := run_calls h self' rest in
      (h'', self'', r :: rs)
  | CallOnTrade signal execution_price execution_size timestamp :: rest =>
      let '(h', self') :=
        on_trade h self signal execution_price execution_size timestamp in
      run_calls h' self' rest
  end.

(** ** The backtest driver *)

(** The part of [BaseStrategy] the driver calls.  [S] is what a strategy
    object consists of. *)
Class BaseStrategy (S : Type) : Type := {
  strategy_generate_signal :
    S → MarketSnapshot → Portfolio → S * Result Signal;
  strategy_on_trade : S → Signal → Q → Q → Z → S
}.

(** [SwingReversionStrategy] as a [BaseStrategy]: the object and the store
    its list lives in. *)
#[global] Instance SwingReversion_BaseStrategy
    : BaseStrategy (Heap * Strategy) := {
  strategy_generate_signal hs market portfolio :=
    let '(self', r) := generate_signal hs.1 hs.2 market portfolio in
    ((hs.1, self'), r);
  strategy_on_trade hs signal execution_price execution_size timestamp :=
    on_trade hs.1 hs.2 signal execution_price execution_size timestamp
}.

(** A row of the price table: its index entry and its [Close] column. *)
Record Bar : Type := mkBar {
  bar_time : Z;
  Close : Q
}.

(** [BacktestExchange]. *)
Record BacktestExchange : Type := mkBacktestExchange {
  data : list Bar;
  current_idx : nat
}.

(** [BacktestExchange.fetch_market_snapshot]. *)
Definition fetch_market_snapshot
    (self : BacktestExchange) (symbol : string) (limit : nat)
    : Result MarketSnapshot :=
  let end_idx := (current_idx self + 1)%nat in
  let start_idx := (end_idx - limit)%nat in
  let slice_df := take (end_idx - start_idx) (drop start_idx (data self)) in
  let prices := Close <$> slice_df in
  current_price ← last_item prices;
  timestamp ← last_item (bar_time <$> slice_df);
  Ok (mkMarketSnapshot symbol prices current_price timestamp).

(** An entry of [trades]; [tr_amount] is its [cost] or its [revenue]. *)
Record Trade : Type := mkTrade {
  tr_timestamp : Z;
  tr_side : Action;
  tr_price : Q;
  tr_size : Q;
  tr_amount : Q
}.

(** What the loop of [run_backtest] carries from one bar to the next. *)
Record Backtest (S : Type) : Type := mkBacktest {
  bt_portfolio : Portfolio;
  bt_trades : list Trade;
  bt_equity_curve : list Q;
  bt_strategy : S
}.

Arguments mkBacktest {S} _ _ _ _.
Arguments bt_portfolio {S} _.
Arguments bt_trades {S} _.
Arguments bt_equity_curve {S} _.
Arguments bt_strategy {S} _.

Section Driver.
Context {S : Type} `{BaseStrategy S}.

(** The body of the loop after the signal is obtained: the trade, if it
    can be made, and the equity sample. *)
Definition apply_signal
    (bt : Backtest S) (signal : Signal) (current_price : Q) (timestamp : Z)
    : Backtest S :=
  let portfolio := bt_portfolio bt in
  let bt :=
    match sig_action signal with
    | Buy =>
        let cost := sig_size signal * current_price in
        if Qgeb (cash portfolio) cost then
          mkBacktest
            (mkPortfolio (pf_symbol portfolio)
               (cash portfolio - cost)
               (quantity portfolio + sig_size signal))
            (bt_trades bt ++
               [mkTrade timestamp Buy current_price (sig_size signal) cost])
            (bt_equity_curve bt)
            (strategy_on_trade (bt_strategy bt) signal current_price
               (sig_size signal) timestamp)
        else bt
    | Sell =>
        if Qgeb (quantity portfolio) (sig_size signal) then
          let revenue := sig_size signal * current_price in
          mkBacktest
            (mkPortfolio (pf_symbol portfolio)
               (cash portfolio + revenue)
               (quantity portfolio - sig_size signal))
            (bt_trades bt ++
               [mkTrade timestamp Sell current_price (sig_size signal)
                  revenue])
            (bt_equity_curve bt)
            (strategy_on_trade (bt_strategy bt) signal current_price
               (sig_size signal) timestamp)
        else bt
    | Hold => bt
    end in
  let equity := value (bt_portfolio bt) current_price in
  mkBacktest (bt_portfolio bt) (bt_trades bt)
    (bt_equity_curve bt ++ [equity]) (bt_strategy bt).

(** One bar of the loop, given what the driver read for it. *)
Definition driver_step
    (bt : Backtest S) (market : MarketSnapshot)
    (current_price : Q) (timestamp : Z) : Result (Backtest S) :=
  let '(strategy, r) :=
    strategy_generate_signal (bt_strategy bt) market (bt_portfolio bt) in
  signal ← r;
  Ok (apply_signal
        (mkBacktest (bt_portfolio bt) (bt_trades bt) (bt_equity_curve bt)
           strategy)
        signal current_price timestamp).

(** The body of [for i in range(start_idx, len(df))]. *)
Definition loop_body (df : list Bar) (symbol : string)
    (bt : Backtest S) (i : nat) : Result (Backtest S) :=
  let exchange := mkBacktestExchange df i in
  match df !! i with
  | None => Raise IndexError
  | Some bar =>
      let current_price := Close bar in
      let timestamp := bar_time bar in
      market ← fetch_market_snapshot exchange symbol 100;
      driver_step bt market current_price timestamp
  end.

Fixpoint backtest_loop (df : list Bar) (symbol : string)
    (bt : Backtest S) (indices : list nat) : Result (Backtest S) :=
  match indices with
  | [] => Ok bt
  | i :: rest =>
      bt' ← loop_body df symbol bt i;
      backtest_loop df symbol bt' rest
  end.
End Driver.

(** The drawdown loop of the report, from a given [peak] and
    [max_drawdown]. *)
Fixpoint drawdown_loop (peak max_drawdown : Q) (equity_curve : list Q)
    : Result Q :=
  match equity_curve with
  | [] => Ok max_drawdown
  | eq :: rest =>
      let peak := if Qgtb eq peak then eq else peak in
      dd ← fdiv (peak - eq) peak;
      let max_drawdown := if Qgtb dd max_drawdown then dd else max_drawdown in
      drawdown_loop peak max_drawdown rest
  end.

Definition max_drawdown (equity_curve : list Q) : Result Q :=
  drawdown_loop 10000 0 equity_curve.

(** The figures of the report. *)
Record Report : Type := mkReport {
  final_equity : Q;
  pnl : Q;
  pnl_pct : Q;
  total_trades : nat;
  report_max_drawdown : Q
}.

(** The [config] dictionary of [run_backtest]. *)
Definition backtest_config : gmap string Q :=
  <["ma_period" := 24]> (<["grid_step_pct" := 0.01]>
  (<["max_grid_levels" := 2]> (<["position_size_pct" := 0.275]>
  (<["stop_loss_pct" := 0.15]> (<["take_profit_above_sma_pct" := 0.50]>
  (<["trailing_stop_activation_pct" := 0.025]>
  (<["trailing_stop_callback_pct" := 0.035]> ∅))))))).

(** [run_backtest] on the downloaded table [df]: [None] when the table is
    empty, the report otherwise. *)
Definition run_backtest (df : list Bar) : Result (option Report) :=
  match df with
  | [] => Ok None
  | _ =>
      let symbol := "BTC-USD" in
      let strategy := init ∅ backtest_config in
      let portfolio := mkPortfolio symbol 10000 0 in
      let start_idx := 50%nat in
      bt ← backtest_loop df symbol (mkBacktest portfolio [] [] strategy)
             (seq start_idx (length df - start_idx));
      final_equity ← last_item (bt_equity_curve bt);
      let pnl := final_equity - 10000 in
      ratio ← fdiv pnl 10000;
      let pnl_pct := ratio * 100 in
      max_drawdown ← max_drawdown (bt_equity_curve bt);
      Ok (Some (mkReport final_equity pnl pnl_pct (length (bt_trades bt))
                  max_drawdown))
  end.

(** ** Notions used in the statements *)

(** An engine with the default parameters ([config = {}]), whatever list it
    refers to and whatever its trailing high. *)
Definition default_strategy (l : loc) (th : Q) : Strategy :=
  set_trailing_high th (set_active_positions l (init ∅ ∅).2).

(** A call made while the portfolio holds a position. *)
Definition holding (c : Call) : Prop :=
  match c with
  | CallGenerateSignal _ portfolio => 0 < quantity portfolio
  | CallOnTrade _ _ _ _ => True
  end.



(** The object with another value in its [stop_loss_pct] attribute. *)
Definition set_stop_loss_pct (v : Q) (self : Strategy) : Strategy :=
  mkStrategy (ma_period self) (grid_step_pct self) (max_grid_levels self)
    (position_size_pct self) v
    (take_profit_above_sma_pct self) (trailing_stop_activation_pct self)
    (trailing_stop_callback_pct self)
    (active_positions self) (last_signal_time self) (trailing_high self).

(** The attributes no method assigns after [__init__]: the object with its
    list reference and its trailing high blanked. *)
Definition static (self : Strategy) : Strategy :=
  set_trailing_high 0 (set_active_positions 1%positive self).

(** A new engine built from [config] and given the state in [state]:
    [e = SwingReversionStrategy(config, exchange); e.set_state(state)]. *)
Definition restore (h : Heap) (config : gmap string Q) (state : StateDict)
    : Heap * Strategy :=
  let '(h1, engine) := init h config in
  set_state h1 engine state.

(** The running peak at step [t] as the spec words it: the largest of the
    starting cash and the equities up to and including step [t]. *)
Definition running_peak_spec (start : Q) (equity_curve : list Q) (t : nat)
    : Q :=
  foldr Qmax start (take (Datatypes.S t) equity_curve).

(** The drawdown at step [t] as the spec words it. *)
Definition drawdown_spec (start : Q) (equity_curve : list Q) (t : nat) : Q :=
  let peak := running_peak_spec start equity_curve t in
  (peak - default 0 (equity_curve !! t)) / peak.

(** ** Concrete inputs *)

(** A window of 24 prices with mean [100] and last price [97]. *)
Definition scenario_market : MarketSnapshot :=
  mkMarketSnapshot "BTC-USD" ([103] ++ replicate 22 100 ++ [97]) 97 0.

(** A window of 24 prices that ends far above its mean. *)
Definition spike_market : MarketSnapshot :=
  mkMarketSnapshot "BTC-USD" (replicate 23 100 ++ [300]) 300 0.

(** A window shorter than the default [ma_period]. *)
Definition short_market : MarketSnapshot :=
  mkMarketSnapshot "BTC-USD" [100; 97] 97 0.

Definition scenario_portfolio : Portfolio := mkPortfolio "BTC-USD" 10000 0.
Definition holding_portfolio : Portfolio := mkPortfolio "BTC-USD" 7250 28.
Definition empty_portfolio : Portfolio := mkPortfolio "BTC-USD" 0 0.
Definition small_portfolio : Portfolio := mkPortfolio "BTC-USD" 5 0.

(** One decision followed by the fill of the buy it asks for. *)
Definition scenario_calls : list Call :=
  [CallGenerateSignal scenario_market scenario_portfolio;
   CallOnTrade (mkSignal Buy (2750 / 97) (Some "Grid Buy Level 2"))
     97 (2750 / 97) 0].

(** A store that already holds a list with the position [scenario_calls]
    records. *)
Definition copy_heap : Heap :=
  {[5%positive := [mkPosition 97 (2750 / 97)]]}.

(** Two configurations that differ in [stop_loss_pct] only: absent from
    the first, [0.5] in the second. *)
Definition tight_config : gmap string Q := {["ma_period" := 24]}.
Definition loose_config : gmap string Q :=
  <["stop_loss_pct" := 0.5]> tight_config.

(** A table of 53 bars: flat at [100], then [97], [100], [96]. *)
Definition scenario_bars : list Bar :=
  imap (λ i c, mkBar (Z.of_nat i) c) (replicate 50 100 ++ [97; 100; 96]).

(** A strategy that asks to buy [1000] units at every bar and counts the
    [on_trade] calls it receives. *)
Definition CountingStrategy : BaseStrategy nat := {|
  strategy_generate_signal n _ _ := (n, Ok (mkSignal Buy 1000 None));
  strategy_on_trade n _ _ _ _ := Datatypes.S n
|}.

(** ** The exchange's fills *)

(** Modelled from the spec: [TradeExecution] is declared in
    [exchange_interface]; it records a fill with the four fields
    [execute_trade] fills in. *)
Record TradeExecution : Type := mkTradeExecution {
  te_side : string;
  te_size : Q;
  te_price : Q;
  te_timestamp : Z
}.

(** [BacktestExchange.execute_trade]: the fill at the requested price,
    stamped with the index entry under the cursor. *)
Definition execute_trade
    (self : BacktestExchange) (symbol side : string) (size price : Q)
    : Result TradeExecution :=
  match data self !! current_idx self with
  | Some bar => Ok (mkTradeExecution side size price (bar_time bar))
  | None => Raise IndexError
  end.

(** ** Further notions used in the statements *)

(** The grid level in the reason of a buy: [level_idx] after the cap. *)
Definition clamp_level (self : Strategy) (level_idx : Z) : Z :=
  if (level_idx >? max_grid_levels self)%Z then max_grid_levels self
  else level_idx.

(** [buy_amount_usd] of [generate_signal] after the cap by the cash. *)
Definition buy_amount (self : Strategy) (portfolio : Portfolio) (cp : Q) : Q :=
  let total_equity := cash portfolio + quantity portfolio * cp in
  if Qltb (cash portfolio) (total_equity * position_size_pct self)
  then cash portfolio
  else total_equity * position_size_pct self.

(** The configuration keys [__init__] reads. *)
Definition config_keys : list string :=
  ["ma_period"; "grid_step_pct"; "max_grid_levels"; "position_size_pct";
   "stop_loss_pct"; "take_profit_above_sma_pct";
   "trailing_stop_activation_pct"; "trailing_stop_callback_pct"].

(** ** Further concrete inputs *)

(** The signals of the grid-buy scenario and of the spike, as computed. *)
Definition scenario_signal : Signal :=
  mkSignal Buy (2750000 # 97000) (Some "Grid Buy Level 2").
Definition spike_signal : Signal :=
  mkSignal Sell 28 (Some "Mean Reversion: Target Hit").

(** A store whose list [1] holds one position bought at [97]. *)
Definition occupied_position : Position := mkPosition 97 (2750 # 97).
Definition occupied_heap : Heap := {[1%positive := [occupied_position]]}.

(** * The engine and the driver on binary64 numbers *)

(** The same methods with Python's [float] as it is: an IEEE 754 binary64
    number, Rocq's primitive [float], whose operations round to nearest,
    ties to even.  A decimal literal denotes the nearest binary64 number,
    as in Python.  The statements whose truth depends on what a test gives
    at its threshold, or on overflow, are made on this embedding. *)
Module Doubles.

#[local] Set Warnings "-inexact-float".
Local Open Scope float_scope.

(** ** Numbers and exceptions *)

(** The exceptions of the first part, and the two [int(x)] raises on a
    float that is no finite number. *)
Inductive Exn : Type :=
| ZeroDivisionError
| StatisticsError
| IndexError
| OverflowError
| ValueError.

Inductive Result (A : Type) : Type :=
| Ok (a : A)
| Raise (e : Exn).

Arguments Ok {A} a.
Arguments Raise {A} e.

#[global] Instance Result_mret : MRet Result := @Ok.
#[global] Instance Result_mbind : MBind Result :=
  fun A B f r => match r with Ok a => f a | Raise e => Raise e end.

(** [x > y] and [x >= y] on floats; with a NaN on either side both are
    [false], as [x < y] ([x <? y]) is. *)
Definition fgtb (x y : float) : bool := y <? x.
Definition fgeb (x y : float) : bool := y <=? x.

(** [x / y] on floats: Python raises when [y] is [0.0] or [-0.0], and
    otherwise gives the IEEE quotient (an infinity or a NaN included). *)
Definition fdiv (x y : float) : Result float :=
  if y =? 0 then Raise ZeroDivisionError else Ok (x / y).

(** [int(x)] for a float [x]: the integer part, rounding toward zero;
    [ValueError] for a NaN and [OverflowError] for an infinity. *)
Definition int_of_float (x : float) : Result Z :=
  match Prim2SF x with
  | S754_nan => Raise ValueError
  | S754_infinity _ => Raise OverflowError
  | S754_zero _ => Ok 0%Z
  | S754_finite s m e =>
      let n := Z.shiftl (Z.pos m) e in
      Ok (if s then (- n)%Z else n)
  end.

(** [float(n)] for an int [n], rounded to nearest. *)
Definition float_of_int (n : Z) : float :=
  SF2Prim (binary_normalize prec emax n 0 false).

(** The rational number a finite float is; [None] for an infinity or a
    NaN. *)
Definition exact_value (x : float) : option Q :=
  match Prim2SF x with
  | S754_zero _ => Some 0%Q
  | S754_finite s m e =>
      Some (Qred (inject_Z (if s then Z.neg m else Z.pos m) * Qpower 2 e)%Q)
  | S754_infinity _ | S754_nan => None
  end.

(** The float nearest to a rational number: [float(Fraction(n, d))], which
    Python computes as the correctly rounded quotient [n / d] of two
    ints. *)
Definition float_of_Q (q : Q) : float :=
  match Qnum q with
  | Z0 => 0
  | Zpos n =>
      SF2Prim (SFdiv prec emax (S754_finite false n 0)
                 (S754_finite false (Qden q) 0))
  | Zneg n =>
      SF2Prim (SFdiv prec emax (S754_finite true n 0)
                 (S754_finite false (Qden q) 0))
  end.

(** [sum(xs)]: starts from [0] and adds from the left, each sum rounded. *)
Definition pysum (xs : list float) : float := fold_left PrimFloat.add xs 0.

(** [statistics.mean(xs)] on floats: the exact sum of the data, divided by
    their number and rounded once.  When a datum is an infinity or a NaN
    the module adds up those data alone, as floats, and divides that. *)
Definition mean (xs : list float) : Result float :=
  match xs with
  | [] => Raise StatisticsError
  | _ =>
      let n := Z.of_nat (length xs) in
      match mapM exact_value xs with
      | Some qs => Ok (float_of_Q (fold_left Qplus qs 0%Q / inject_Z n)%Q)
      | None =>
          Ok (pysum (List.filter (λ x, negb (is_finite x)) xs)
              / float_of_int n)
      end
  end.

(** ** Data model and strategy engine *)

(** Modelled from the spec: [Signal] is declared in the base template's
    [strategy_interface], which is not part of the sources.  The spec gives
    it an action among buy, sell and hold, a size that is [0] for hold, and
    an optional reason. *)
Record Signal : Type := mkSignal {
  sig_action : Action;
  sig_size : float;
  sig_reason : option string
}.

(** [Signal("hold")], [Signal("hold", reason=r)] and
    [Signal(a, size=s, reason=r)]. *)
Definition Signal_hold : Signal := mkSignal Hold 0 None.
Definition Signal_hold_reason (r : string) : Signal := mkSignal Hold 0 (Some r).
Definition Signal_sized (a : Action) (s : float) (r : string) : Signal :=
  mkSignal a s (Some r).

(** Modelled from the spec: [Portfolio] is declared in [strategy_interface]
    too; it holds the symbol, the cash and the quantity held. *)
Record Portfolio : Type := mkPortfolio {
  pf_symbol : string;
  cash : float;
  quantity : float
}.

(** Modelled from the spec: [Portfolio.value(current_price)], the
    mark-to-market value [cash + quantity * current_price]. *)
Definition value (p : Portfolio) (current_price : float) : float :=
  cash p + quantity p * current_price.

(** Modelled from the spec: [MarketSnapshot] is declared in the base
    template's [exchange_interface]; it has the four fields the spec lists.
    Timestamps are integers. *)
Record MarketSnapshot : Type := mkMarketSnapshot {
  ms_symbol : string;
  prices : list float;
  current_price : float;
  ms_timestamp : Z
}.

(** An entry of [active_positions]: [{'price': ..., 'size': ...}]. *)
Record Position : Type := mkPosition {
  pos_price : float;
  pos_size : float
}.

(** The store of list objects. *)
Abbreviation loc := positive (only parsing).
Abbreviation Heap := (gmap positive (list Position)) (only parsing).

(** The list a reference denotes. *)
Definition deref (h : Heap) (l : loc) : list Position := default [] (h !! l).

(** [[]]: a new, empty list object. *)
Definition alloc_list (h : Heap) : Heap * loc :=
  let l := fresh (dom h) in (<[l := []]> h, l).

(** The attributes of a [SwingReversionStrategy] object. *)
Record Strategy : Type := mkStrategy {
  ma_period : Z;
  grid_step_pct : float;
  max_grid_levels : Z;
  position_size_pct : float;
  stop_loss_pct : float;
  take_profit_above_sma_pct : float;
  trailing_stop_activation_pct : float;
  trailing_stop_callback_pct : float;
  active_positions : loc;
  last_signal_time : option Z;
  trailing_high : float
}.

Definition set_trailing_high (v : float) (self : Strategy) : Strategy :=
  mkStrategy (ma_period self) (grid_step_pct self) (max_grid_levels self)
    (position_size_pct self) (stop_loss_pct self)
    (take_profit_above_sma_pct self) (trailing_stop_activation_pct self)
    (trailing_stop_callback_pct self)
    (active_positions self) (last_signal_time self) v.

Definition set_active_positions (l : loc) (self : Strategy) : Strategy :=
  mkStrategy (ma_period self) (grid_step_pct self) (max_grid_levels self)
    (position_size_pct self) (stop_loss_pct self)
    (take_profit_above_sma_pct self) (trailing_stop_activation_pct self)
    (trailing_stop_callback_pct self)
    l (last_signal_time self) (trailing_high self).

(** [config.get(key, dflt)] on a configuration of numbers. *)
Definition config_get (config : gmap string float) (key : string)
    (dflt : float) : float :=
  default dflt (config !! key).

(** [SwingReversionStrategy.__init__]; [int(...)] raises on a value that
    is no finite number, before any attribute of the state is bound. *)
Definition init (h : Heap) (config : gmap string float)
    : Result (Heap * Strategy) :=
  ma_period ← int_of_float (config_get config "ma_period" 24);
  max_grid_levels ← int_of_float (config_get config "max_grid_levels" 2);
  let '(h', l) := alloc_list h in
  Ok (h',
      mkStrategy
        ma_period
        (config_get config "grid_step_pct" 0.01)
        max_grid_levels
        (config_get config "position_size_pct" 0.275)
        (config_get config "stop_loss_pct" 0.15)
        (config_get config "take_profit_above_sma_pct" 0.50)
        (config_get config "trailing_stop_activation_pct" 0.025)
        (config_get config "trailing_stop_callback_pct" 0.035)
        l None 0).

(** The trailing-high update of [generate_signal]. *)
Definition update_trailing_high
    (self : Strategy) (current_price : float) (portfolio : Portfolio)
    : Strategy :=
  if fgtb (quantity portfolio) 0 then
    if fgtb current_price (trailing_high self)
    then set_trailing_high current_price self
    else self
  else set_trailing_high 0 self.

(** The trailing-stop test of [generate_signal]: [true] when the method
    returns the "Trailing Stop Hit" sell there. *)
Definition trailing_stop_hit
    (positions : list Position) (self : Strategy)
    (current_price : float) (portfolio : Portfolio) : Result bool :=
  if fgtb (quantity portfolio) 0 then
    let total_size := pysum (pos_size <$> positions) in
    if fgtb total_size 0 then
      avg_entry ← fdiv (pysum ((λ p, pos_price p * pos_size p) <$> positions))
                       total_size;
      if fgtb (trailing_high self)
              (avg_entry * (1 + trailing_stop_activation_pct self)) then
        if current_price
           <? trailing_high self * (1 - trailing_stop_callback_pct self)
        then Ok true
        else Ok false
      else Ok false
    else Ok false
  else Ok false.

(** The [for pos in self.active_positions] loop: [true] when it returns the
    "Position already exists at this level" hold. *)
Fixpoint position_near
    (self : Strategy) (current_price : float) (positions : list Position)
    : Result bool :=
  match positions with
  | [] => Ok false
  | pos :: rest =>
      price_diff_pct ← fdiv (abs (pos_price pos - current_price))
                            (pos_price pos);
      if price_diff_pct <? grid_step_pct self * 0.5 then Ok true
      else position_near self current_price rest
  end.

(** The grid entry of [generate_signal], entered when [deviation < 0]. *)
Definition grid_entry
    (positions : list Position) (self : Strategy)
    (current_price deviation : float) (portfolio : Portfolio)
    : Result Signal :=
  steps ← fdiv (abs deviation) (grid_step_pct self);
  level_idx ← int_of_float steps;
  if (level_idx <? 1)%Z then Ok Signal_hold
  else
    let level_idx :=
      if (level_idx >? max_grid_levels self)%Z then max_grid_levels self
      else level_idx in
    position_near self current_price positions ≫= λ near : bool,
    if near then Ok (Signal_hold_reason "Position already exists at this level")
    else
      let total_equity := cash portfolio + quantity portfolio * current_price in
      current_exposure ← fdiv (quantity portfolio * current_price) total_equity;
      if fgeb current_exposure 0.55 then
        Ok (Signal_hold_reason "Max exposure reached")
      else
        let buy_amount_usd := total_equity * position_size_pct self in
        let buy_amount_usd :=
          if cash portfolio <? buy_amount_usd then cash portfolio
          else buy_amount_usd in
        if buy_amount_usd <? 10 then
          Ok (Signal_hold_reason "Insufficient cash")
        else
          size ← fdiv buy_amount_usd current_price;
          Ok (Signal_sized Buy size ("Grid Buy Level " +:+ str_of_int level_idx)).

(** What [generate_signal] does after the trailing-high update. *)
Definition decide_signal
    (positions : list Position) (self : Strategy)
    (current_price deviation : float) (portfolio : Portfolio)
    : Result Signal :=
  trailing_stop_hit positions self current_price portfolio ≫= λ hit : bool,
  if hit then
    Ok (Signal_sized Sell (quantity portfolio) "Trailing Stop Hit")
  else if fgtb deviation (take_profit_above_sma_pct self)
          && fgtb (quantity portfolio) 0 then
    Ok (Signal_sized Sell (quantity portfolio) "Mean Reversion: Target Hit")
  else if deviation <? 0 then
    grid_entry positions self current_price deviation portfolio
  else Ok Signal_hold.

(** [SwingReversionStrategy.generate_signal]: the object after the call and
    the signal returned or the exception raised. *)
Definition generate_signal
    (h : Heap) (self : Strategy) (market : MarketSnapshot)
    (portfolio : Portfolio) : Strategy * Result Signal :=
  if (Z.of_nat (length (prices market)) <? ma_period self)%Z then
    (self, Ok Signal_hold)
  else
    let current_price := current_price market in
    match mean (slice_from (prices market) (- ma_period self)) with
    | Raise e => (self, Raise e)
    | Ok sma =>
        match fdiv (current_price - sma) sma with
        | Raise e => (self, Raise e)
        | Ok deviation =>
            let self := update_trailing_high self current_price portfolio in
            (self,
             decide_signal (deref h (active_positions self)) self
               current_price deviation portfolio)
        end
    end.

(** [SwingReversionStrategy.on_trade]. *)
Definition on_trade
    (h : Heap) (self : Strategy) (signal : Signal)
    (execution_price execution_size : float) (timestamp : Z)
    : Heap * Strategy :=
  match sig_action signal with
  | Buy =>
      let l := active_positions self in
      (<[l := deref h l ++ [mkPosition execution_price execution_size]]> h,
       self)
  | Sell =>
      let '(h', l) := alloc_list h in
      (h', set_active_positions l self)
  | Hold => (h, self)
  end.

(** ** The backtest driver *)

(** The part of [BaseStrategy] the driver calls.  [S] is what a strategy
    object consists of. *)
Class BaseStrategy (S : Type) : Type := {
  strategy_generate_signal :
    S → MarketSnapshot → Portfolio → S * Result Signal;
  strategy_on_trade : S → Signal → float → float → Z → S
}.

(** [SwingReversionStrategy] as a [BaseStrategy]: the object and the store
    its list lives in. *)
#[global] Instance SwingReversion_BaseStrategy
    : BaseStrategy (Heap * Strategy) := {
  strategy_generate_signal hs market portfolio :=
    let '(self', r) := generate_signal hs.1 hs.2 market portfolio in
    ((hs.1, self'), r);
  strategy_on_trade hs signal execution_price execution_size timestamp :=
    on_trade hs.1 hs.2 signal execution_price execution_size timestamp
}.

(** An entry of [trades]; [tr_amount] is its [cost] or its [revenue]. *)
Record Trade : Type := mkTrade {
  tr_timestamp : Z;
  tr_side : Action;
  tr_price : float;
  tr_size : float;
  tr_amount : float
}.

(** What the loop of [run_backtest] carries from one bar to the next. *)
Record Backtest (S : Type) : Type := mkBacktest {
  bt_portfolio : Portfolio;
  bt_trades : list Trade;
  bt_equity_curve : list float;
  bt_strategy : S
}.

Arguments mkBacktest {S} _ _ _ _.
Arguments bt_portfolio {S} _.
Arguments bt_trades {S} _.
Arguments bt_equity_curve {S} _.
Arguments bt_strategy {S} _.

Section Driver.
Context {S : Type} `{BaseStrategy S}.

(** The body of the loop of [run_backtest] after the signal is obtained:
    the trade, if it can be made, and the equity sample. *)
Definition apply_signal
    (bt : Backtest S) (signal : Signal) (current_price : float)
    (timestamp : Z) : Backtest S :=
  let portfolio := bt_portfolio bt in
  let bt :=
    match sig_action signal with
    | Buy =>
        let cost := sig_size signal * current_price in
        if fgeb (cash portfolio) cost then
          mkBacktest
            (mkPortfolio (pf_symbol portfolio)
               (cash portfolio - cost)
               (quantity portfolio + sig_size signal))
            (bt_trades bt ++
               [mkTrade timestamp Buy current_price (sig_size signal) cost])
            (bt_equity_curve bt)
            (strategy_on_trade (bt_strategy bt) signal current_price
               (sig_size signal) timestamp)
        else bt
    | Sell =>
        if fgeb (quantity portfolio) (sig_size signal) then
          let revenue := sig_size signal * current_price in
          mkBacktest
            (mkPortfolio (pf_symbol portfolio)
               (cash portfolio + revenue)
               (quantity portfolio - sig_size signal))
            (bt_trades bt ++
               [mkTrade timestamp Sell current_price (sig_size signal)
                  revenue])
            (bt_equity_curve bt)
            (strategy_on_trade (bt_strategy bt) signal current_price
               (sig_size signal) timestamp)
        else bt
    | Hold => bt
    end in
  let equity := value (bt_portfolio bt) current_price in
  mkBacktest (bt_portfolio bt) (bt_trades bt)
    (bt_equity_curve bt ++ [equity]) (bt_strategy bt).

(** One bar of the loop, given what the driver read for it. *)
Definition driver_step
    (bt : Backtest S) (market : MarketSnapshot)
    (current_price : float) (timestamp : Z) : Result (Backtest S) :=
  let '(strategy, r) :=
    strategy_generate_signal (bt_strategy bt) market (bt_portfolio bt) in
  signal ← r;
  Ok (apply_signal
        (mkBacktest (bt_portfolio bt) (bt_trades bt) (bt_equity_curve bt)
           strategy)
        signal current_price timestamp).
End Driver.

(** The drawdown loop of the report, from a given [peak] and
    [max_drawdown]. *)
Fixpoint drawdown_loop (peak max_drawdown : float) (equity_curve : list float)
    : Result float :=
  match equity_curve with
  | [] => Ok max_drawdown
  | eq :: rest =>
      let peak := if fgtb eq peak then eq else peak in
      dd ← fdiv (peak - eq) peak;
      let max_drawdown := if fgtb dd max_drawdown then dd else max_drawdown in
      drawdown_loop peak max_drawdown rest
  end.

(** The loop as [run_backtest] starts it: [peak = 10000.0] and
    [max_drawdown = 0.0]. *)
Definition max_drawdown (equity_curve : list float) : Result float :=
  drawdown_loop 10000 0 equity_curve.

(** An engine with the default parameters ([config = {}]), the list it
    refers to and its trailing high being given. *)
Definition default_strategy (l : loc) (th : float) : Strategy :=
  mkStrategy 24 0.01 2 0.275 0.15 0.50 0.025 0.035 l None th.

(** ** Notions used in the statements *)

(** [current_exposure] as [generate_signal] computes it: each operation
    rounded. *)
Definition current_exposure (portfolio : Portfolio) (current_price : float)
    : float :=
  (quantity portfolio * current_price)
  / (cash portfolio + quantity portfolio * current_price).

(** The same ratio in exact arithmetic, for a portfolio and a price that
    are finite numbers. *)
Definition exact_exposure (portfolio : Portfolio) (current_price : float)
    : option Q :=
  c ← exact_value (cash portfolio);
  q ← exact_value (quantity portfolio);
  p ← exact_value current_price;
  Some (q * p / (c + q * p))%Q.

(** The deviation of a window in exact arithmetic: [(p - sma) / sma] for
    the exact mean [sma] of the last [n] prices and the last price [p]. *)
Definition exact_deviation (n : Z) (market : MarketSnapshot) : option Q :=
  qs ← mapM exact_value (slice_from (prices market) (- n));
  p ← exact_value (current_price market);
  let sma := (fold_left Qplus qs 0 / inject_Z (Z.of_nat (length qs)))%Q in
  Some ((p - sma) / sma)%Q.

(** [buy_amount_usd] of [generate_signal] after the cap by the cash. *)
Definition buy_amount (self : Strategy) (portfolio : Portfolio)
    (current_price : float) : float :=
  let total_equity := cash portfolio + quantity portfolio * current_price in
  if cash portfolio <? total_equity * position_size_pct self
  then cash portfolio
  else total_equity * position_size_pct self.

(** A ledger entry the anti-clustering loop stops at: the quotient
    [abs(price - current_price) / price] is computed and is under half a
    grid step. *)
Definition near_price (self : Strategy) (current_price : float)
    (pos : Position) : Prop :=
  ∃ price_diff_pct,
    fdiv (abs (pos_price pos - current_price)) (pos_price pos)
      = Ok price_diff_pct
    ∧ (price_diff_pct <? grid_step_pct self * 0.5) = true.

(** ** Concrete inputs *)

(** A window of 24 prices with mean [100] and last price [97]. *)
Definition scenario_market : MarketSnapshot :=
  mkMarketSnapshot "BTC-USD" ([103] ++ replicate 22 100 ++ [97]) 97 0.

Definition scenario_portfolio : Portfolio := mkPortfolio "BTC-USD" 10000 0.

(** A window of 24 prices that ends at [35973.74], below [37000]. *)
Definition drop_market : MarketSnapshot :=
  mkMarketSnapshot "BTC-USD" (replicate 23 37000 ++ [35973.74]) 35973.74 0.

(** A portfolio whose position is worth more than a float can hold. *)
Definition overflow_portfolio : Portfolio :=
  mkPortfolio "BTC-USD" 1000 1e306.

(** A portfolio whose exposure at [35973.74] is [0.55] up to rounding. *)
Definition threshold_portfolio : Portfolio :=
  mkPortfolio "BTC-USD" 8576.96 0.29140565065270146.

(** A window of 24 prices that ends at [3], half above its mean up to
    rounding: the exact mean is a little under [2] and rounds to [2]. *)
Definition target_market : MarketSnapshot :=
  mkMarketSnapshot "BTC-USD" (replicate 22 2 ++ [0.9999999999999999; 3]) 3 0.

Definition holding_portfolio : Portfolio := mkPortfolio "BTC-USD" 7250 28.

(** A window of 24 prices that ends far above its mean. *)
Definition spike_market : MarketSnapshot :=
  mkMarketSnapshot "BTC-USD" (replicate 23 100 ++ [300]) 300 0.

(** A window of 24 prices that ends at [96], below a high of [100]. *)
Definition dip_market : MarketSnapshot :=
  mkMarketSnapshot "BTC-USD" (replicate 23 100 ++ [96]) 96 0.

(** A buy whose cost is the whole cash up to rounding. *)
Definition threshold_buy : Signal :=
  mkSignal Buy 0.17649951417226212 (Some "Grid Buy Level 1").
Definition threshold_cash : Portfolio := mkPortfolio "BTC-USD" 7462.11 0.

(** A strategy that returns a given signal at every bar and counts the
    [on_trade] calls it receives. *)
Definition CountingStrategy (signal : Signal) : BaseStrategy nat := {|
  strategy_generate_signal n _ _ := (n, Ok signal);
  strategy_on_trade n _ _ _ _ := Datatypes.S n
|}.

End Doubles.

(** * Properties *)

(** ** Tests and exact arithmetic *)

Lemma Qltb_true (x y : Q) : Qltb x y = true ↔ x < y.
Proof.
  unfold Qltb. rewrite negb_true_iff, <- not_true_iff_false, Qle_bool_iff.
  split; [apply Qnot_le_lt | apply Qlt_not_le].
Qed.

Lemma Qltb_false (x y : Q) : Qltb x y = false ↔ y <= x.
Proof. unfold Qltb. rewrite negb_false_iff. apply Qle_bool_iff. Qed.

Lemma Qgtb_true (x y : Q) : Qgtb x y = true ↔ y < x.
Proof. apply Qltb_true. Qed.

Lemma Qgtb_false (x y : Q) : Qgtb x y = false ↔ x <= y.
Proof. apply Qltb_false. Qed.


Lemma Qgeb_false (x y : Q) : Qgeb x y = false ↔ x < y.
Proof.
  unfold Qgeb. rewrite <- not_true_iff_false, Qle_bool_iff.
  split; [apply Qnot_le_lt | apply Qlt_not_le].
Qed.

#[global] Instance Qltb_proper : Proper (Qeq ==> Qeq ==> eq) Qltb.
Proof. intros x x' Hx y y' Hy. unfold Qltb. now rewrite Hx, Hy. Qed.

#[global] Instance Qgtb_proper : Proper (Qeq ==> Qeq ==> eq) Qgtb.
Proof. intros x x' Hx y y' Hy. unfold Qgtb. now rewrite Hx, Hy. Qed.

#[global] Instance Qgeb_proper : Proper (Qeq ==> Qeq ==> eq) Qgeb.
Proof. intros x x' Hx y y' Hy. unfold Qgeb. now rewrite Hx, Hy. Qed.

#[global] Instance int_of_float_proper : Proper (Qeq ==> eq) int_of_float.
Proof.
  intros x y Hxy. unfold int_of_float. rewrite Hxy.
  destruct (Qle_bool 0 y); [apply Qfloor_comp | apply Qceiling_comp]; exact Hxy.
Qed.

Lemma fdiv_Ok (x y : Q) : ¬ y == 0 → fdiv x y = Ok (x / y).
Proof.
  intros Hy. unfold fdiv.
  destruct (Qeq_bool y 0) eqn:E; [| reflexivity].
  apply Qeq_bool_iff in E. contradiction.
Qed.

Lemma fdiv_Ok_inv (x y q : Q) : fdiv x y = Ok q → ¬ y == 0 ∧ q = x / y.
Proof.
  unfold fdiv. destruct (Qeq_bool y 0) eqn:E; [discriminate |].
  intros [= <-]. split; [| reflexivity].
  intros Hy. apply Qeq_bool_iff in Hy. congruence.
Qed.

Lemma fdiv_Raise (x y : Q) : y == 0 → fdiv x y = Raise ZeroDivisionError.
Proof. intros Hy. unfold fdiv. apply Qeq_bool_iff in Hy. now rewrite Hy. Qed.


(** The ways through [generate_signal] up to the trailing-high update: the
    three early exits, each closed by [tac], and the rest. *)
Ltac generate_signal_paths tac :=
  unfold generate_signal;
  destruct (_ <? _)%Z; [tac |];
  destruct (mean _) as [sma |]; [| tac];
  destruct (fdiv _ sma) as [deviation |]; [| tac].

(** ** The model on concrete inputs *)

Example mean_scenario_market :
  mean (slice_from (prices scenario_market) (-24)) = Ok (2400 # 24).
Proof. reflexivity. Qed.

Example slice_from_negative : slice_from [1; 2; 3; 4] (-3) = [2; 3; 4].
Proof. reflexivity. Qed.

Example slice_from_too_negative : slice_from [1; 2; 3] (-5) = [1; 2; 3].
Proof. reflexivity. Qed.

Example slice_from_zero : slice_from [1; 2; 3] (- 0) = [1; 2; 3].
Proof. reflexivity. Qed.

Example int_of_float_truncates :
  int_of_float (7 # 2) = 3%Z ∧ int_of_float (- (7 # 2)) = (-3)%Z.
Proof. split; reflexivity. Qed.

Example str_of_int_examples :
  str_of_int 2 = "2" ∧ str_of_int (-12) = "-12" ∧ str_of_int 0 = "0".
Proof. repeat split; reflexivity. Qed.

Example fetch_market_snapshot_window :
  fetch_market_snapshot (mkBacktestExchange scenario_bars 52) "BTC-USD" 3
  = Ok (mkMarketSnapshot "BTC-USD" [97; 100; 96] 96 52).
Proof. reflexivity. Qed.

(** The three bars after the warm-up: a grid buy at [97], a hold at [100]
    that lifts the trailing high, and the trailing stop at [96]. *)
Example run_backtest_scenario :
  ∃ report, run_backtest scenario_bars = Ok (Some report)
          ∧ total_trades report = 2%nat
          ∧ final_equity report == 10000 - 2750 / 97
          ∧ report_max_drawdown report
            == (7250 + 2750 / 97 * 100 - (10000 - 2750 / 97))
               / (7250 + 2750 / 97 * 100).
Proof.
  eexists. split; [vm_compute; reflexivity |].
  repeat split; vm_compute; reflexivity.
Qed.

(** ** Grid buy at the default configuration *)

(** C1.  With the default configuration, cash [10000], quantity [0], an
    empty ledger and a window of at least 24 prices whose last-24 mean is
    [100] while the current price is [97], [generate_signal] returns a buy
    of size [(10000 * 0.275) / 97] whose reason names grid level 2. *)
Theorem grid_buy_scenario
    (h : Heap) (l : loc) (th sma : Q) (market : MarketSnapshot)
    (symbol : string) :
  deref h l = [] →
  (24 ≤ length (prices market))%nat →
  mean (slice_from (prices market) (-24)) = Ok sma →
  sma == 100 →
  current_price market == 97 →
  ∃ self' signal,
    generate_signal h (default_strategy l th) market
      (mkPortfolio symbol 10000 0) = (self', Ok signal)
    ∧ sig_action signal = Buy
    ∧ sig_size signal == (10000 * 0.275) / 97
    ∧ sig_reason signal = Some "Grid Buy Level 2".
Proof.
  intros Hl Hlen Hmean Hsma Hcp.
  unfold generate_signal.
  change (ma_period (default_strategy l th)) with 24%Z.
  destruct (Z.ltb_spec (Z.of_nat (length (prices market))) 24) as [Hlt | _];
    [lia |].
  change (Z.opp 24) with (-24)%Z. rewrite Hmean.
  rewrite (fdiv_Ok _ sma) by (rewrite Hsma; discriminate).
  assert (Hdev : (current_price market - sma) / sma == - (3 # 100)).
  { rewrite Hsma, Hcp. reflexivity. }
  set (deviation := (current_price market - sma) / sma) in *.
  assert (Htp : Qgtb deviation 0.50 = false) by now rewrite Hdev.
  assert (Hneg : Qltb deviation 0 = true) by now rewrite Hdev.
  assert (Hidx : int_of_float (Qabs deviation / 0.01) = 3%Z)
    by now rewrite Hdev.
  assert (Hcp0 : ¬ current_price market == 0) by (rewrite Hcp; discriminate).
  unfold update_trailing_high. simpl quantity.
  change (Qgtb 0 0) with false. cbv iota.
  change (active_positions _) with l. rewrite Hl.
  unfold decide_signal, trailing_stop_hit. simpl quantity.
  change (Qgtb 0 0) with false. cbv iota.
  unfold mbind, Result_bind at 1.
  change (take_profit_above_sma_pct _) with 0.50.
  rewrite Htp, Hneg. cbn [andb].
  unfold grid_entry.
  change (grid_step_pct _) with 0.01.
  rewrite (fdiv_Ok _ 0.01) by discriminate.
  unfold mbind, Result_bind at 1. rewrite Hidx.
  change (max_grid_levels _) with 2%Z.
  change (position_size_pct _) with 0.275.
  cbn [cash quantity position_near Z.ltb Z.gtb Z.compare Pos.compare
       Pos.compare_cont].
  unfold mbind, Result_bind at 1.
  set (cp := current_price market) in *.
  assert (Heq : 10000 + 0 * cp == 10000) by ring.
  rewrite (fdiv_Ok _ (10000 + 0 * cp)) by (rewrite Heq; discriminate).
  unfold Result_bind at 1.
  assert (Hexp : Qgeb (0 * cp / (10000 + 0 * cp)) 0.55 = false).
  { apply Qgeb_false. rewrite Heq. unfold Qdiv.
    rewrite Qmult_0_l, Qmult_0_l. reflexivity. }
  rewrite Hexp.
  assert (Hcap : Qltb 10000 ((10000 + 0 * cp) * 0.275) = false)
    by now rewrite Heq.
  rewrite Hcap.
  assert (Hmin : Qltb ((10000 + 0 * cp) * 0.275) 10 = false)
    by now rewrite Heq.
  rewrite Hmin.
  rewrite (fdiv_Ok _ cp) by exact Hcp0.
  unfold Result_bind.
  eexists _, _. split; [reflexivity |].
  split; [reflexivity |]. split; [| reflexivity].
  cbn [sig_size Signal_sized]. subst cp. rewrite Heq, Hcp. reflexivity.
Qed.

Lemma grid_buy_scenario_witness :
  ∃ self' signal,
    generate_signal {[1%positive := []]} (default_strategy 1 0)
      scenario_market (mkPortfolio "BTC-USD" 10000 0) = (self', Ok signal)
    ∧ sig_action signal = Buy
    ∧ sig_size signal == (10000 * 0.275) / 97
    ∧ sig_reason signal = Some "Grid Buy Level 2".
Proof.
  eapply (grid_buy_scenario {[1%positive := []]} 1 0 _ scenario_market).
  - reflexivity.
  - cbn. lia.
  - vm_compute. reflexivity.
  - reflexivity.
  - reflexivity.
Defined.

(** ** Trailing high *)

Lemma update_trailing_high_holding self cp portfolio :
  0 < quantity portfolio →
  trailing_high self <= trailing_high (update_trailing_high self cp portfolio).
Proof.
  intros Hq. unfold update_trailing_high.
  apply Qgtb_true in Hq. rewrite Hq.
  destruct (Qgtb cp (trailing_high self)) eqn:E; cbn.
  - apply Qgtb_true in E. now apply Qlt_le_weak.
  - apply Qle_refl.
Qed.

Lemma update_trailing_high_flat self cp portfolio :
  quantity portfolio == 0 →
  trailing_high (update_trailing_high self cp portfolio) = 0.
Proof. intros Hq. unfold update_trailing_high. rewrite Hq. reflexivity. Qed.

Lemma update_trailing_high_active_positions self cp portfolio :
  active_positions (update_trailing_high self cp portfolio)
  = active_positions self.
Proof.
  unfold update_trailing_high.
  destruct (Qgtb _ 0); [destruct (Qgtb _ _) |]; reflexivity.
Qed.

Lemma generate_signal_holding h self market portfolio :
  0 < quantity portfolio →
  trailing_high self
  <= trailing_high (generate_signal h self market portfolio).1.
Proof.
  intros Hq. generate_signal_paths ltac:(apply Qle_refl).
  now apply update_trailing_high_holding.
Qed.

Lemma generate_signal_active_positions h self market portfolio :
  active_positions (generate_signal h self market portfolio).1
  = active_positions self.
Proof.
  generate_signal_paths ltac:(reflexivity).
  apply update_trailing_high_active_positions.
Qed.

Lemma on_trade_trailing_high h self signal p s t :
  trailing_high (on_trade h self signal p s t).2 = trailing_high self.
Proof. unfold on_trade. now destruct (sig_action signal). Qed.

Lemma run_calls_holding calls : ∀ h self,
  Forall holding calls →
  trailing_high self <= trailing_high (run_calls h self calls).1.2.
Proof.
  induction calls as [| c calls IH]; intros h self Hall; cbn.
  - apply Qle_refl.
  - apply Forall_cons in Hall as [Hc Hall]. destruct c as [market pf | sg p s t].
    + pose proof (generate_signal_holding h self market pf Hc) as Hstep.
      destruct (generate_signal h self market pf) as [self1 r] eqn:E.
      specialize (IH h self1 Hall).
      destruct (run_calls h self1 calls) as [[h2 self2] rs]. cbn in *.
      eapply Qle_trans; eassumption.
    + pose proof (on_trade_trailing_high h self sg p s t) as Hstep.
      destruct (on_trade h self sg p s t) as [h1 self1]. cbn in Hstep.
      rewrite <- Hstep. apply IH, Hall.
Qed.

(** C3.  For a call of [generate_signal]: on a window shorter than
    [ma_period] the object is left as it was and the result is a hold;
    while the portfolio holds a position the trailing high does not
    decrease; and a call that returns a signal for a portfolio whose
    quantity is [0], on a window of at least [ma_period] prices, leaves the
    trailing high at exactly [0].  Over a sequence of calls made while the
    portfolio holds a position, the trailing high at the end is at least
    the one at the start. *)
Theorem trailing_high_monotonic
    (h : Heap) (self : Strategy) (market : MarketSnapshot)
    (portfolio : Portfolio) (calls : list Call) :
  ((Z.of_nat (length (prices market)) < ma_period self)%Z →
     generate_signal h self market portfolio = (self, Ok Signal_hold))
  ∧ (0 < quantity portfolio →
     trailing_high self
     <= trailing_high (generate_signal h self market portfolio).1)
  ∧ (quantity portfolio == 0 →
     (ma_period self ≤ Z.of_nat (length (prices market)))%Z →
     (∃ signal, (generate_signal h self market portfolio).2 = Ok signal) →
     trailing_high (generate_signal h self market portfolio).1 = 0)
  ∧ (Forall holding calls →
     trailing_high self <= trailing_high (run_calls h self calls).1.2).
Proof.
  split; [| split; [| split]].
  - intros Hshort. unfold generate_signal.
    apply Z.ltb_lt in Hshort. now rewrite Hshort.
  - apply generate_signal_holding.
  - intros Hq Hlen [signal Hr]. revert Hr. unfold generate_signal.
    destruct (Z.ltb_spec (Z.of_nat (length (prices market))) (ma_period self));
      [lia |].
    destruct (mean _) as [sma |]; [| discriminate].
    destruct (fdiv _ sma); [| discriminate].
    intros _. now apply update_trailing_high_flat.
  - apply run_calls_holding.
Qed.

Lemma trailing_high_monotonic_witness :
  generate_signal ∅ (default_strategy 1 90) short_market holding_portfolio
    = (default_strategy 1 90, Ok Signal_hold)
  ∧ trailing_high (default_strategy 1 90)
    <= trailing_high
         (generate_signal ∅ (default_strategy 1 90) spike_market
            holding_portfolio).1
  ∧ trailing_high
      (generate_signal ∅ (default_strategy 1 90) scenario_market
         scenario_portfolio).1 = 0
  ∧ trailing_high (default_strategy 1 90)
    <= trailing_high
         (run_calls ∅ (default_strategy 1 90)
            [CallGenerateSignal spike_market holding_portfolio;
             CallGenerateSignal scenario_market holding_portfolio]).1.2.
Proof.
  split; [| split; [| split]].
  - apply (trailing_high_monotonic ∅ (default_strategy 1 90) short_market
             holding_portfolio []).
    reflexivity.
  - apply (trailing_high_monotonic ∅ (default_strategy 1 90) spike_market
             holding_portfolio []).
    reflexivity.
  - apply (trailing_high_monotonic ∅ (default_strategy 1 90) scenario_market
             scenario_portfolio []).
    + reflexivity.
    + apply Z.leb_le. reflexivity.
    + eexists. vm_compute. reflexivity.
  - apply (trailing_high_monotonic ∅ (default_strategy 1 90) scenario_market
             scenario_portfolio).
    repeat constructor.
Defined.

(** ** The ledger and the portfolio *)

Lemma grid_entry_not_sell positions self cp deviation portfolio signal :
  grid_entry positions self cp deviation portfolio = Ok signal →
  sig_action signal ≠ Sell.
Proof.
  unfold grid_entry. intros Hg.
  destruct (fdiv (Qabs deviation) _); cbn [mbind Result_bind] in Hg;
    [| discriminate].
  destruct (_ <? 1)%Z; [injection Hg as <-; discriminate |].
  destruct (position_near _ _ _) as [[|] |]; cbn [mbind Result_bind] in Hg;
    [injection Hg as <-; discriminate | | discriminate].
  destruct (fdiv (quantity portfolio * cp) _); cbn [mbind Result_bind] in Hg;
    [| discriminate].
  destruct (Qgeb _ _); [injection Hg as <-; discriminate |].
  destruct (Qltb _ 10); [injection Hg as <-; discriminate |].
  destruct (fdiv _ cp); cbn [mbind Result_bind] in Hg; [| discriminate].
  injection Hg as <-. discriminate.
Qed.



Lemma deref_insert (h : Heap) l xs : deref (<[l := xs]> h) l = xs.
Proof. unfold deref. now rewrite lookup_insert_eq. Qed.

Lemma deref_insert_ne (h : Heap) l l' xs :
  l ≠ l' → deref (<[l := xs]> h) l' = deref h l'.
Proof. intros Hne. unfold deref. now rewrite lookup_insert_ne. Qed.






(** ** Zero equity *)

(** C7.  At the window of the grid-buy scenario, a new engine with the
    default parameters returns the "Insufficient cash" hold for a portfolio
    with cash [5] and quantity [0], and raises [ZeroDivisionError] for one
    with cash [0] and quantity [0]. *)
Theorem zero_equity_raises :
  (generate_signal (init ∅ ∅).1 (init ∅ ∅).2 scenario_market
     small_portfolio).2
  = Ok (Signal_hold_reason "Insufficient cash")
  ∧ (generate_signal (init ∅ ∅).1 (init ∅ ∅).2 scenario_market
       empty_portfolio).2
    = Raise ZeroDivisionError.
Proof. split; vm_compute; reflexivity. Qed.

(** ** State export and import *)

Lemma update_trailing_high_set_active_positions l self cp portfolio :
  update_trailing_high (set_active_positions l self) cp portfolio
  = set_active_positions l (update_trailing_high self cp portfolio).
Proof.
  unfold update_trailing_high. cbn [trailing_high set_active_positions].
  destruct (Qgtb (quantity portfolio) 0);
    [destruct (Qgtb cp (trailing_high self)) |]; reflexivity.
Qed.

Lemma position_near_set_active_positions l self cp positions :
  position_near (set_active_positions l self) cp positions
  = position_near self cp positions.
Proof.
  induction positions as [| pos rest IH]; cbn [position_near]; [reflexivity |].
  now rewrite IH.
Qed.

Lemma decide_signal_set_active_positions l positions self cp deviation pf :
  decide_signal positions (set_active_positions l self) cp deviation pf
  = decide_signal positions self cp deviation pf.
Proof.
  unfold decide_signal, trailing_stop_hit, grid_entry.
  now rewrite position_near_set_active_positions.
Qed.

(** [generate_signal] reads the list only through its contents. *)
Lemma generate_signal_contents h1 h2 l self market portfolio :
  deref h1 l = deref h2 (active_positions self) →
  generate_signal h1 (set_active_positions l self) market portfolio
  = (set_active_positions l (generate_signal h2 self market portfolio).1,
     (generate_signal h2 self market portfolio).2).
Proof.
  intros Hd. unfold generate_signal. cbn [ma_period set_active_positions].
  destruct (_ <? _)%Z; [reflexivity |].
  destruct (mean _) as [sma |]; [| reflexivity].
  destruct (fdiv _ sma) as [deviation |]; [| reflexivity].
  cbn [fst snd].
  rewrite update_trailing_high_set_active_positions.
  rewrite decide_signal_set_active_positions.
  cbn [active_positions set_active_positions].
  rewrite update_trailing_high_active_positions, Hd. reflexivity.
Qed.

Lemma run_calls_contents calls : ∀ h1 h2 l self,
  deref h1 l = deref h2 (active_positions self) →
  (run_calls h1 (set_active_positions l self) calls).2
  = (run_calls h2 self calls).2.
Proof.
  induction calls as [| [market pf | sg p s t] calls IH];
    intros h1 h2 l self Hd; cbn [run_calls].
  - reflexivity.
  - rewrite (generate_signal_contents h1 h2) by exact Hd.
    pose proof (generate_signal_active_positions h2 self market pf) as Hap.
    destruct (generate_signal h2 self market pf) as [self1 r].
    cbn [fst snd] in *.
    specialize (IH h1 h2 l self1). rewrite Hap in IH. specialize (IH Hd).
    destruct (run_calls h1 _ calls) as [[h1' s1'] rs1].
    destruct (run_calls h2 _ calls) as [[h2' s2'] rs2].
    cbn [snd] in *. now rewrite IH.
  - unfold on_trade. cbn [active_positions set_active_positions].
    destruct (sig_action sg).
    + apply IH. now rewrite !deref_insert, Hd.
    + cbn [alloc_list].
      change (set_active_positions ?l1 (set_active_positions l self))
        with (set_active_positions l1
                (set_active_positions (fresh (dom h2)) self)).
      apply IH. cbn [active_positions set_active_positions].
      now rewrite !deref_insert.
    + now apply IH.
Qed.

Lemma deref_alloc_list_old (h : Heap) l : deref (alloc_list h).1 l = deref h l.
Proof.
  cbn [alloc_list fst]. destruct (decide (fresh (dom h) = l)) as [<- | Hne].
  - rewrite deref_insert. unfold deref.
    pose proof (is_fresh (dom h)) as Hfresh.
    apply not_elem_of_dom in Hfresh. now rewrite Hfresh.
  - now apply deref_insert_ne.
Qed.

(** What a run of calls leaves alone: a list that exists and is not the
    object's own. *)
Lemma run_calls_frame calls : ∀ (h : Heap) self l,
  l ∈ dom h → l ≠ active_positions self →
  deref (run_calls h self calls).1.1 l = deref h l.
Proof.
  induction calls as [| [market pf | sg p s t] calls IH];
    intros h self l Hl Hne; cbn [run_calls].
  - reflexivity.
  - pose proof (generate_signal_active_positions h self market pf) as Hap.
    destruct (generate_signal h self market pf) as [self1 r].
    cbn [fst] in Hap. specialize (IH h self1 l Hl). rewrite Hap in IH.
    specialize (IH Hne).
    destruct (run_calls h self1 calls) as [[h' s'] rs]. exact IH.
  - unfold on_trade. destruct (sig_action sg).
    + rewrite IH; [now apply deref_insert_ne | | exact Hne].
      rewrite dom_insert. set_solver.
    + cbn [alloc_list].
      assert (fresh (dom h) ≠ l) as Hfl.
      { intros <-. now apply (is_fresh (dom h)). }
      rewrite IH; [now apply deref_insert_ne | | cbn; congruence].
      rewrite dom_insert. set_solver.
    + now apply IH.
Qed.

Lemma static_generate_signal h self market portfolio :
  static (generate_signal h self market portfolio).1 = static self.
Proof.
  generate_signal_paths ltac:(reflexivity).
  cbn [fst]. unfold update_trailing_high.
  destruct (Qgtb _ 0); [destruct (Qgtb _ _) |]; reflexivity.
Qed.

Lemma static_run_calls calls : ∀ h self,
  static (run_calls h self calls).1.2 = static self.
Proof.
  induction calls as [| [market pf | sg p s t] calls IH]; intros h self;
    cbn [run_calls].
  - reflexivity.
  - pose proof (static_generate_signal h self market pf) as Hst.
    destruct (generate_signal h self market pf) as [self1 r].
    specialize (IH h self1).
    destruct (run_calls h self1 calls) as [[h' s'] rs].
    cbn [fst snd] in *. congruence.
  - unfold on_trade. destruct (sig_action sg); cbn [alloc_list]; rewrite IH;
      reflexivity.
Qed.

Lemma restore_list h config l self :
  static self = static (init h config).2 →
  restore h config (mkStateDict (Some l) (Some (trailing_high self)))
  = ((alloc_list h).1, set_active_positions l self).
Proof.
  destruct self. unfold restore, init, set_state, static. cbn.
  intros [= -> -> -> -> -> -> -> -> ->]. reflexivity.
Qed.

Lemma set_active_positions_id self :
  set_active_positions (active_positions self) self = self.
Proof. now destruct self. Qed.

(** C8, as the code has it.  Take an engine built from [config] and driven
    by any calls, and a new engine built from the same [config].  When the
    new engine is given [get_state()] of the first, the two produce the
    same results on every sequence of calls started from that same store.
    When the new engine is instead given a mapping whose list is another
    list object with the same contents, it produces the same results even
    after the first engine has run the whole sequence. *)
Theorem state_round_trip
    (h0 : Heap) (config : gmap string Q) (before calls : list Call)
    (copy : loc) :
  let start := init h0 config in
  let ran := run_calls start.1 start.2 before in
  let h := ran.1.1 in
  let original := ran.1.2 in
  (let restored := restore h config (get_state original) in
   (run_calls restored.1 restored.2 calls).2
   = (run_calls restored.1 original calls).2)
  ∧ (copy ∈ dom h → copy ≠ active_positions original →
     deref h copy = deref h (active_positions original) →
     let restored :=
       restore h config
         (mkStateDict (Some copy) (Some (trailing_high original))) in
     let first := run_calls restored.1 original calls in
     (run_calls first.1.1 restored.2 calls).2 = first.2).
Proof.
  cbv zeta.
  set (h := (run_calls (init h0 config).1 (init h0 config).2 before).1.1).
  set (original :=
         (run_calls (init h0 config).1 (init h0 config).2 before).1.2).
  assert (Hst : static original = static (init h config).2).
  { unfold original. rewrite static_run_calls. reflexivity. }
  split.
  - unfold get_state. rewrite restore_list by exact Hst. cbn [fst snd].
    now rewrite set_active_positions_id.
  - intros Hin Hne Hd. rewrite restore_list by exact Hst. cbn [fst snd].
    rewrite (run_calls_contents calls _ (alloc_list h).1 copy original);
      [reflexivity |].
    rewrite run_calls_frame.
    + now rewrite !deref_alloc_list_old.
    + cbn [alloc_list fst]. rewrite dom_insert. set_solver.
    + exact Hne.
Qed.

(** C8, as the claim has it, fails when both engines stay in use: the list
    in the exported mapping is the first engine's own list, so the buy the
    first engine records is in the ledger the second engine reads, and the
    second engine holds where the first one bought. *)
Lemma shared_ledger_round_trip_differs :
  let '(h0, original) := init ∅ ∅ in
  let '(h1, restored) := restore h0 ∅ (get_state original) in
  let '(h2, _, out_original) := run_calls h1 original scenario_calls in
  let '(_, _, out_restored) := run_calls h2 restored scenario_calls in
  out_original
    = [Ok (mkSignal Buy (10000 * 0.275 / 97) (Some "Grid Buy Level 2"))]
  ∧ out_restored
    = [Ok (mkSignal Hold 0 (Some "Position already exists at this level"))]
  ∧ out_restored ≠ out_original.
Proof. vm_compute. repeat split. discriminate. Qed.

Lemma state_round_trip_witness :
  let start := init copy_heap ∅ in
  let ran := run_calls start.1 start.2 scenario_calls in
  let restored :=
    restore ran.1.1 ∅
      (mkStateDict (Some 5%positive) (Some (trailing_high ran.1.2))) in
  let first := run_calls restored.1 ran.1.2 scenario_calls in
  (run_calls first.1.1 restored.2 scenario_calls).2 = first.2.
Proof.
  cbv zeta.
  apply (state_round_trip copy_heap ∅ scenario_calls scenario_calls 5).
  - apply elem_of_dom. eexists. vm_compute. reflexivity.
  - vm_compute. discriminate.
  - vm_compute. reflexivity.
Defined.

(** ** Drawdown *)



#[global] Instance running_peak_spec_proper :
  Proper (Qeq ==> eq ==> eq ==> Qeq) running_peak_spec.
Proof.
  intros p p' Hp curve ? <- t ? <-. unfold running_peak_spec.
  induction (take (Datatypes.S t) curve) as [| x xs IH]; cbn [foldr].
  - exact Hp.
  - now rewrite IH.
Qed.

#[global] Instance drawdown_spec_proper :
  Proper (Qeq ==> eq ==> eq ==> Qeq) drawdown_spec.
Proof.
  intros p p' Hp curve ? <- t ? <-. unfold drawdown_spec. cbv zeta.
  now rewrite Hp.
Qed.






(** ** The stop-loss parameter *)

Lemma position_near_stop_loss v self cp positions :
  position_near (set_stop_loss_pct v self) cp positions
  = position_near self cp positions.
Proof.
  induction positions as [| pos rest IH]; cbn [position_near]; [reflexivity |].
  now rewrite IH.
Qed.

Lemma decide_signal_stop_loss v positions self cp deviation portfolio :
  decide_signal positions (set_stop_loss_pct v self) cp deviation portfolio
  = decide_signal positions self cp deviation portfolio.
Proof.
  unfold decide_signal, trailing_stop_hit, grid_entry.
  now rewrite position_near_stop_loss.
Qed.

Lemma update_trailing_high_stop_loss v self cp portfolio :
  update_trailing_high (set_stop_loss_pct v self) cp portfolio
  = set_stop_loss_pct v (update_trailing_high self cp portfolio).
Proof.
  unfold update_trailing_high. cbn [trailing_high set_stop_loss_pct].
  destruct (Qgtb (quantity portfolio) 0);
    [destruct (Qgtb cp (trailing_high self)) |]; reflexivity.
Qed.

Lemma generate_signal_stop_loss v h self market portfolio :
  generate_signal h (set_stop_loss_pct v self) market portfolio
  = (set_stop_loss_pct v (generate_signal h self market portfolio).1,
     (generate_signal h self market portfolio).2).
Proof.
  unfold generate_signal. cbn [ma_period set_stop_loss_pct].
  destruct (_ <? _)%Z; [reflexivity |].
  destruct (mean _) as [sma |]; [| reflexivity].
  destruct (fdiv _ sma) as [deviation |]; [| reflexivity].
  cbn [fst snd].
  rewrite update_trailing_high_stop_loss, decide_signal_stop_loss.
  reflexivity.
Qed.

Lemma on_trade_stop_loss v h self signal p s t :
  on_trade h (set_stop_loss_pct v self) signal p s t
  = ((on_trade h self signal p s t).1,
     set_stop_loss_pct v (on_trade h self signal p s t).2).
Proof. unfold on_trade. destruct (sig_action signal); reflexivity. Qed.

Lemma run_calls_stop_loss v calls : ∀ h self,
  run_calls h (set_stop_loss_pct v self) calls
  = ((run_calls h self calls).1.1,
     set_stop_loss_pct v (run_calls h self calls).1.2,
     (run_calls h self calls).2).
Proof.
  induction calls as [| [market pf | sg p s t] calls IH]; intros h self;
    cbn [run_calls].
  - reflexivity.
  - rewrite generate_signal_stop_loss.
    destruct (generate_signal h self market pf) as [self1 r]. cbn [fst snd].
    rewrite IH. destruct (run_calls h self1 calls) as [[h2 self2] rs].
    reflexivity.
  - rewrite on_trade_stop_loss.
    destruct (on_trade h self sg p s t) as [h1 self1]. cbn [fst snd].
    apply IH.
Qed.

Lemma init_stop_loss h (config1 config2 : gmap string Q) :
  (∀ key : string, key ≠ "stop_loss_pct" → config1 !! key = config2 !! key) →
  init h config1
  = ((init h config2).1,
     set_stop_loss_pct (config_get config1 "stop_loss_pct" 0.15)
       (init h config2).2).
Proof.
  intros Hsame. unfold init, config_get.
  cbn [alloc_list fst snd set_stop_loss_pct].
  rewrite (Hsame "ma_period"), (Hsame "grid_step_pct"),
    (Hsame "max_grid_levels"), (Hsame "position_size_pct"),
    (Hsame "take_profit_above_sma_pct"),
    (Hsame "trailing_stop_activation_pct"),
    (Hsame "trailing_stop_callback_pct") by discriminate.
  reflexivity.
Qed.

(** C10.  Two engines built from configurations that differ at most under
    the key [stop_loss_pct] return the same results on every sequence of
    [generate_signal] and [on_trade] calls, and end with the same store, the
    same exported state and the same [last_signal_time]. *)
Theorem stop_loss_noninterference
    (h : Heap) (config1 config2 : gmap string Q) (calls : list Call) :
  (∀ key : string, key ≠ "stop_loss_pct" → config1 !! key = config2 !! key) →
  let out1 := run_calls (init h config1).1 (init h config1).2 calls in
  let out2 := run_calls (init h config2).1 (init h config2).2 calls in
  out1.2 = out2.2
  ∧ out1.1.1 = out2.1.1
  ∧ get_state out1.1.2 = get_state out2.1.2
  ∧ last_signal_time out1.1.2 = last_signal_time out2.1.2.
Proof.
  intros Hsame. cbv zeta. rewrite (init_stop_loss h config1 config2 Hsame).
  cbn [fst snd]. rewrite run_calls_stop_loss. cbn [fst snd]. auto.
Qed.

Lemma stop_loss_noninterference_witness :
  stop_loss_pct (init ∅ tight_config).2 = 0.15
  ∧ stop_loss_pct (init ∅ loose_config).2 = 0.5
  ∧ (run_calls (init ∅ tight_config).1 (init ∅ tight_config).2
       scenario_calls).2
    = (run_calls (init ∅ loose_config).1 (init ∅ loose_config).2
         scenario_calls).2.
Proof.
  split; [reflexivity |]. split; [reflexivity |].
  apply (stop_loss_noninterference ∅ tight_config loose_config
           scenario_calls).
  intros key Hkey. unfold loose_config. now rewrite lookup_insert_ne.
Defined.

(** * Further properties of the engine *)

(** ** What a returned signal tells *)

Lemma set_trailing_high_id self :
  set_trailing_high (trailing_high self) self = self.
Proof. now destruct self. Qed.

Lemma update_trailing_high_set self cp portfolio :
  ∃ v, update_trailing_high self cp portfolio = set_trailing_high v self
     ∧ (v = trailing_high self ∨ v = cp ∨ v = 0).
Proof.
  unfold update_trailing_high.
  destruct (Qgtb (quantity portfolio) 0);
    [destruct (Qgtb cp (trailing_high self)) |].
  - exists cp. auto.
  - exists (trailing_high self). rewrite set_trailing_high_id. auto.
  - exists 0. auto.
Qed.

(** A call that returns a signal either stopped at the short window or
    went through the anchor, the trailing-high update and the decision. *)
Lemma generate_signal_inv h self market portfolio self' signal :
  generate_signal h self market portfolio = (self', Ok signal) →
  ((Z.of_nat (length (prices market)) < ma_period self)%Z
     ∧ self' = self ∧ signal = Signal_hold)
  ∨ ((ma_period self ≤ Z.of_nat (length (prices market)))%Z
     ∧ ∃ sma,
         mean (slice_from (prices market) (- ma_period self)) = Ok sma
         ∧ ¬ sma == 0
         ∧ self' = update_trailing_high self (current_price market) portfolio
         ∧ decide_signal (deref h (active_positions self')) self'
             (current_price market) ((current_price market - sma) / sma)
             portfolio = Ok signal).
Proof.
  unfold generate_signal.
  destruct (Z.ltb_spec (Z.of_nat (length (prices market))) (ma_period self))
    as [Hshort | Hlong].
  - intros [= <- <-]. now left.
  - destruct (mean _) as [sma |]; [| discriminate].
    destruct (fdiv _ sma) as [deviation |] eqn:Hdiv; [| discriminate].
    apply fdiv_Ok_inv in Hdiv as [Hsma ->].
    intros [= <- Hd]. right. split; [exact Hlong |]. exists sma. auto.
Qed.

Lemma decide_signal_buy_inv positions self cp deviation portfolio signal :
  decide_signal positions self cp deviation portfolio = Ok signal →
  sig_action signal = Buy →
  deviation < 0
  ∧ grid_entry positions self cp deviation portfolio = Ok signal.
Proof.
  unfold decide_signal. intros Hd Hbuy.
  destruct (trailing_stop_hit positions self cp portfolio) as [[|] |];
    cbn [mbind Result_bind] in Hd; try discriminate.
  - injection Hd as <-. discriminate.
  - destruct (_ && _).
    + injection Hd as <-. discriminate.
    + destruct (Qltb deviation 0) eqn:Hneg.
      * apply Qltb_true in Hneg. auto.
      * injection Hd as <-. discriminate.
Qed.

Lemma grid_entry_buy_inv positions self cp deviation portfolio signal :
  grid_entry positions self cp deviation portfolio = Ok signal →
  sig_action signal = Buy →
  ¬ grid_step_pct self == 0
  ∧ (1 ≤ int_of_float (Qabs deviation / grid_step_pct self))%Z
  ∧ position_near self cp positions = Ok false
  ∧ 10 <= buy_amount self portfolio cp
  ∧ ¬ cp == 0
  ∧ signal
    = Signal_sized Buy (buy_amount self portfolio cp / cp)
        ("Grid Buy Level "
         +:+ str_of_int
               (clamp_level self
                  (int_of_float (Qabs deviation / grid_step_pct self)))).
Proof.
  unfold grid_entry. intros Hg Hbuy.
  destruct (fdiv (Qabs deviation) (grid_step_pct self)) as [steps |] eqn:E1;
    cbn [mbind Result_bind] in Hg; [| discriminate].
  apply fdiv_Ok_inv in E1 as [Hstep ->].
  destruct (Z.ltb_spec (int_of_float (Qabs deviation / grid_step_pct self)) 1)
    as [| Hlevel].
  { injection Hg as <-. discriminate. }
  destruct (position_near self cp positions) as [[|] |] eqn:E2;
    cbn [mbind Result_bind] in Hg; try discriminate.
  { injection Hg as <-. discriminate. }
  destruct (fdiv (quantity portfolio * cp) _) as [exposure |] eqn:E3;
    cbn [mbind Result_bind] in Hg; [| discriminate].
  destruct (Qgeb _ 0.55) eqn:E4.
  { injection Hg as <-. discriminate. }
  fold (buy_amount self portfolio cp) in Hg.
  destruct (Qltb (buy_amount self portfolio cp) 10) eqn:E5.
  { injection Hg as <-. discriminate. }
  apply Qltb_false in E5.
  destruct (fdiv _ cp) as [size |] eqn:E6; cbn [mbind Result_bind] in Hg;
    [| discriminate].
  apply fdiv_Ok_inv in E6 as [Hcp ->].
  injection Hg as <-. auto 10.
Qed.

(** X2.  When [max_grid_levels] is at least 1, the reason of every buy
    names a grid level between 1 and [max_grid_levels]. *)
Theorem buy_level_bounds
    (h : Heap) (self self' : Strategy) (market : MarketSnapshot)
    (portfolio : Portfolio) (signal : Signal) :
  generate_signal h self market portfolio = (self', Ok signal) →
  sig_action signal = Buy →
  (1 ≤ max_grid_levels self)%Z →
  ∃ level : Z,
    (1 ≤ level ≤ max_grid_levels self)%Z
    ∧ sig_reason signal = Some ("Grid Buy Level " +:+ str_of_int level).
Proof.
  intros Hg Hbuy Hmax.
  apply generate_signal_inv in Hg
    as [(_ & _ & ->) | (_ & sma & _ & _ & -> & Hd)]; [discriminate |].
  apply decide_signal_buy_inv in Hd as [_ Hgrid]; [| exact Hbuy].
  apply grid_entry_buy_inv in Hgrid as (_ & Hlevel & _ & _ & _ & ->);
    [| exact Hbuy].
  destruct (update_trailing_high_set self (current_price market) portfolio)
    as (v & Hupd & _).
  rewrite Hupd in *. cbn [grid_step_pct set_trailing_high] in *.
  eexists. split; [| reflexivity].
  unfold clamp_level. cbn [max_grid_levels set_trailing_high].
  destruct (Z.gtb_spec (int_of_float
              (Qabs ((current_price market - sma) / sma) / grid_step_pct self))
              (max_grid_levels self)); lia.
Qed.

Lemma buy_level_bounds_witness :
  ∃ level : Z,
    (1 ≤ level ≤ max_grid_levels (default_strategy 1 0))%Z
    ∧ sig_reason scenario_signal
      = Some ("Grid Buy Level " +:+ str_of_int level).
Proof.
  eapply (buy_level_bounds {[1%positive := []]} (default_strategy 1 0)
            _ scenario_market scenario_portfolio scenario_signal).
  - vm_compute. reflexivity.
  - reflexivity.
  - apply Z.leb_le. reflexivity.
Defined.

Lemma trailing_stop_hit_inv positions self cp portfolio :
  trailing_stop_hit positions self cp portfolio = Ok true →
  0 < quantity portfolio
  ∧ 0 < pysum (pos_size <$> positions)
  ∧ cp < trailing_high self * (1 - trailing_stop_callback_pct self).
Proof.
  unfold trailing_stop_hit.
  destruct (Qgtb (quantity portfolio) 0) eqn:E1; [| discriminate].
  destruct (Qgtb (pysum _) 0) eqn:E2; [| discriminate].
  destruct (fdiv _ _); cbn [mbind Result_bind]; [| discriminate].
  destruct (Qgtb (trailing_high self) _); [| discriminate].
  destruct (Qltb cp _) eqn:E3; [| discriminate].
  intros _. apply Qgtb_true in E1, E2. apply Qltb_true in E3. auto.
Qed.

Lemma decide_signal_sell_inv positions self cp deviation portfolio signal :
  decide_signal positions self cp deviation portfolio = Ok signal →
  sig_action signal = Sell →
  0 < quantity portfolio
  ∧ ((trailing_stop_hit positions self cp portfolio = Ok true
      ∧ signal = Signal_sized Sell (quantity portfolio) "Trailing Stop Hit")
     ∨ (trailing_stop_hit positions self cp portfolio = Ok false
        ∧ take_profit_above_sma_pct self < deviation
        ∧ signal = Signal_sized Sell (quantity portfolio)
                     "Mean Reversion: Target Hit")).
Proof.
  unfold decide_signal. intros Hd Hsell.
  destruct (trailing_stop_hit _ _ _ _) as [[|] |] eqn:Hhit;
    cbn [mbind Result_bind] in Hd; [| | discriminate].
  - injection Hd as <-. apply trailing_stop_hit_inv in Hhit as (Hq & _).
    auto.
  - destruct (Qgtb deviation _) eqn:E1; cbn [andb] in Hd.
    + destruct (Qgtb (quantity portfolio) 0) eqn:E2.
      * injection Hd as <-. apply Qgtb_true in E1, E2. auto 6.
      * destruct (Qltb deviation 0);
          [now apply grid_entry_not_sell in Hd |].
        injection Hd as <-. discriminate.
    + destruct (Qltb deviation 0);
        [now apply grid_entry_not_sell in Hd |].
      injection Hd as <-. discriminate.
Qed.

(** X4.  A sell is returned only for a portfolio that holds a position;
    it is sized as the whole quantity and its reason is one of the two
    exits. *)
Theorem sell_only_when_holding
    (h : Heap) (self self' : Strategy) (market : MarketSnapshot)
    (portfolio : Portfolio) (signal : Signal) :
  generate_signal h self market portfolio = (self', Ok signal) →
  sig_action signal = Sell →
  0 < quantity portfolio
  ∧ sig_size signal = quantity portfolio
  ∧ (sig_reason signal = Some "Trailing Stop Hit"
     ∨ sig_reason signal = Some "Mean Reversion: Target Hit").
Proof.
  intros Hg Hsell.
  apply generate_signal_inv in Hg
    as [(_ & _ & ->) | (_ & sma & _ & _ & -> & Hd)]; [discriminate |].
  apply decide_signal_sell_inv in Hd
    as (Hq & [(_ & ->) | (_ & _ & ->)]); auto.
Qed.

Lemma sell_only_when_holding_witness :
  0 < quantity holding_portfolio
  ∧ sig_size spike_signal = quantity holding_portfolio
  ∧ (sig_reason spike_signal = Some "Trailing Stop Hit"
     ∨ sig_reason spike_signal = Some "Mean Reversion: Target Hit").
Proof.
  eapply (sell_only_when_holding ∅ (default_strategy 1 90) _ spike_market
            holding_portfolio spike_signal).
  - vm_compute. reflexivity.
  - reflexivity.
Defined.

(** X5.  A call of [generate_signal] changes no attribute of the engine
    other than [trailing_high], whatever it returns or raises, and leaves
    [trailing_high] at its old value, at the current price or at 0. *)
Theorem generate_signal_frame
    (h : Heap) (self : Strategy) (market : MarketSnapshot)
    (portfolio : Portfolio) :
  let self' := (generate_signal h self market portfolio).1 in
  self' = set_trailing_high (trailing_high self') self
  ∧ (trailing_high self' = trailing_high self
     ∨ trailing_high self' = current_price market
     ∨ trailing_high self' = 0).
Proof.
  cbv zeta. unfold generate_signal.
  destruct (_ <? _)%Z; [| destruct (mean _) as [sma |];
                           [destruct (fdiv _ sma) |]];
    cbn [fst]; try (rewrite set_trailing_high_id; auto).
  destruct (update_trailing_high_set self (current_price market) portfolio)
    as (v & -> & Hv).
  cbn. auto.
Qed.

(** ** The trailing stop *)

Lemma grid_entry_reason positions self cp deviation portfolio signal :
  grid_entry positions self cp deviation portfolio = Ok signal →
  sig_reason signal ≠ Some "Trailing Stop Hit".
Proof.
  unfold grid_entry. intros Hg.
  destruct (fdiv (Qabs deviation) _); cbn [mbind Result_bind] in Hg;
    [| discriminate].
  destruct (_ <? 1)%Z; [injection Hg as <-; discriminate |].
  destruct (position_near _ _ _) as [[|] |]; cbn [mbind Result_bind] in Hg;
    [injection Hg as <-; discriminate | | discriminate].
  destruct (fdiv (quantity portfolio * cp) _); cbn [mbind Result_bind] in Hg;
    [| discriminate].
  destruct (Qgeb _ _); [injection Hg as <-; discriminate |].
  destruct (Qltb _ 10); [injection Hg as <-; discriminate |].
  destruct (fdiv _ cp); cbn [mbind Result_bind] in Hg; [| discriminate].
  injection Hg as <-. cbn. discriminate.
Qed.

Lemma decide_signal_trailing_stop positions self cp deviation pf signal :
  decide_signal positions self cp deviation pf = Ok signal →
  sig_reason signal = Some "Trailing Stop Hit" →
  trailing_stop_hit positions self cp pf = Ok true
  ∧ signal = Signal_sized Sell (quantity pf) "Trailing Stop Hit".
Proof.
  unfold decide_signal. intros Hd Hreason.
  destruct (trailing_stop_hit _ _ _ _) as [[|] |];
    cbn [mbind Result_bind] in Hd; [| | discriminate].
  - injection Hd as <-. auto.
  - destruct (_ && _); [injection Hd as <-; discriminate |].
    destruct (Qltb deviation 0).
    + now apply grid_entry_reason in Hd.
    + injection Hd as <-. discriminate.
Qed.

(** X8.  With a callback fraction and a price that are not negative, the
    trailing stop never fires on a call whose current price is at or above
    the trailing high the engine had before the call. *)
Theorem no_trailing_stop_at_high
    (h : Heap) (self self' : Strategy) (market : MarketSnapshot)
    (portfolio : Portfolio) (signal : Signal) :
  trailing_high self <= current_price market →
  0 <= current_price market →
  0 <= trailing_stop_callback_pct self →
  generate_signal h self market portfolio = (self', Ok signal) →
  sig_reason signal ≠ Some "Trailing Stop Hit".
Proof.
  intros Hhigh Hcp Hcb Hg Hreason.
  apply generate_signal_inv in Hg
    as [(_ & _ & ->) | (_ & sma & _ & _ & -> & Hd)]; [discriminate |].
  apply decide_signal_trailing_stop in Hd as [Hhit _]; [| exact Hreason].
  apply trailing_stop_hit_inv in Hhit as (Hq & _ & Hlt).
  revert Hlt. unfold update_trailing_high.
  apply Qgtb_true in Hq. rewrite Hq.
  destruct (Qgtb (current_price market) (trailing_high self)) eqn:E;
    cbn [trailing_high trailing_stop_callback_pct set_trailing_high].
  - nra.
  - apply Qgtb_false in E. nra.
Qed.

Lemma no_trailing_stop_at_high_witness :
  sig_reason spike_signal ≠ Some "Trailing Stop Hit".
Proof.
  eapply (no_trailing_stop_at_high occupied_heap (default_strategy 1 90) _
            spike_market holding_portfolio spike_signal).
  - discriminate.
  - discriminate.
  - discriminate.
  - vm_compute. reflexivity.
Defined.

(** ** The window of the moving average *)

(** [prices[-n:]] for [1 <= n <= len(prices)]: the last [n] prices. *)
Lemma slice_from_window {A : Type} (xs : list A) (n : Z) :
  (1 ≤ n ≤ Z.of_nat (length xs))%Z →
  slice_from xs (- n) = drop (length xs - Z.to_nat n) xs
  ∧ length (slice_from xs (- n)) = Z.to_nat n.
Proof.
  intros Hn. unfold slice_from.
  destruct (Z.ltb_spec (- n) 0); [| lia].
  replace (Z.to_nat (Z.max (Z.of_nat (length xs) + - n) 0))
    with (length xs - Z.to_nat n)%nat by lia.
  split; [reflexivity |]. rewrite length_drop. lia.
Qed.

(** ** Construction, fills and state *)

(** X10.  [__init__] binds a new, empty list that no list of the store is
    shared with, starts the trailing high at 0, and leaves every list of
    the store as it was. *)
Theorem init_fresh_ledger (h : Heap) (config : gmap string Q) (l : loc) :
  let built := init h config in
  (active_positions built.2 ∉ dom h)
  ∧ deref built.1 (active_positions built.2) = []
  ∧ trailing_high built.2 = 0
  ∧ last_signal_time built.2 = None
  ∧ deref built.1 l = deref h l.
Proof.
  cbv zeta. unfold init. cbn -[fresh]. repeat split.
  - apply is_fresh.
  - apply deref_insert.
  - apply (deref_alloc_list_old h l).
Qed.

(** X11.  A key of the configuration that [__init__] does not read has
    no effect on the engine it builds. *)
Theorem unknown_config_key_ignored
    (h : Heap) (config : gmap string Q) (key : string) (v : Q) :
  key ∉ config_keys →
  init h (<[key := v]> config) = init h config.
Proof.
  intros Hkey.
  assert (Hne : ∀ k, k ∈ config_keys → key ≠ k)
    by (intros k Hk ->; contradiction).
  unfold init, config_get.
  rewrite !lookup_insert_ne by (apply Hne; unfold config_keys; set_solver).
  reflexivity.
Qed.

Lemma unknown_config_key_ignored_witness :
  init ∅ (<["stop_loss" := 0.5]> tight_config) = init ∅ tight_config.
Proof.
  apply (unknown_config_key_ignored ∅ tight_config "stop_loss" 0.5).
  unfold config_keys. intros Hin.
  repeat (apply elem_of_cons in Hin as [Hin | Hin]; [discriminate |]).
  inversion Hin.
Defined.

(** X12.  A buy fill appends the position to the engine's list in place,
    so the list under an exported reference grows with it; a sell fill
    binds a new empty list and leaves the old list, and so what an earlier
    export refers to, as it was; any other action changes nothing.  No
    fill touches a list other than the engine's own. *)
Theorem on_trade_ledger
    (h : Heap) (self : Strategy) (signal : Signal)
    (execution_price execution_size : Q) (timestamp : Z) :
  let exported := active_positions self in
  let after :=
    on_trade h self signal execution_price execution_size timestamp in
  match sig_action signal with
  | Buy =>
      after.2 = self
      ∧ deref after.1 exported
        = (deref h exported ++ [mkPosition execution_price execution_size])
  | Sell =>
      deref after.1 (active_positions after.2) = []
      ∧ deref after.1 exported = deref h exported
      ∧ after.2 = set_active_positions (active_positions after.2) self
  | Hold => after = (h, self)
  end
  ∧ ∀ l, l ≠ exported → deref after.1 l = deref h l.
Proof.
  cbv zeta. unfold on_trade. destruct (sig_action signal).
  - split; [split; [reflexivity | apply deref_insert] |].
    intros l Hl. now apply deref_insert_ne.
  - split; [| intros l _; apply (deref_alloc_list_old h l)].
    split; [apply deref_insert |].
    split; [apply (deref_alloc_list_old h) | reflexivity].
  - split; [reflexivity | reflexivity].
Qed.

(** X13.  [set_state(get_state())] on the same engine changes nothing,
    another engine given [get_state()] exports the same mapping, and a
    mapping with both keys is what [get_state] returns after
    [set_state]. *)
Theorem get_set_state_inverse
    (h : Heap) (self other : Strategy) (l : loc) (th : Q) :
  set_state h self (get_state self) = (h, self)
  ∧ get_state (set_state h other (get_state self)).2 = get_state self
  ∧ (set_state h other (get_state self)).1 = h
  ∧ get_state (set_state h self (mkStateDict (Some l) (Some th))).2
    = mkStateDict (Some l) (Some th).
Proof. destruct self. repeat split. Qed.

(** X14.  [set_state] of a mapping without the two keys falls back to the
    defaults: the trailing high is 0 and the ledger is a new empty list,
    not one of the store, whose lists stay as they were. *)
Theorem set_state_missing_keys (h : Heap) (self : Strategy) (l : loc) :
  let after := set_state h self (mkStateDict None None) in
  trailing_high after.2 = 0
  ∧ deref after.1 (active_positions after.2) = []
  ∧ (active_positions after.2 ∉ dom h)
  ∧ deref after.1 l = deref h l.
Proof.
  cbv zeta. unfold set_state. cbn [sd_active_positions sd_trailing_high].
  cbn -[fresh]. repeat split.
  - apply deref_insert.
  - apply is_fresh.
  - apply (deref_alloc_list_old h l).
Qed.

(** * Further properties of the exchange and the driver *)

(** ** Snapshots *)

Lemma last_item_fmap {A B : Type} (f : A → B) (xs : list A) :
  last_item (f <$> xs)
  = match last xs with Some x => Ok (f x) | None => Raise IndexError end.
Proof. unfold last_item. rewrite fmap_last. now destruct (last xs). Qed.

(** The snapshot in terms of the rows up to the cursor. *)
Lemma fetch_market_snapshot_slice df idx symbol limit :
  fetch_market_snapshot (mkBacktestExchange df idx) symbol limit
  = match last (drop (idx + 1 - limit) (take (idx + 1) df)) with
    | Some bar =>
        Ok (mkMarketSnapshot symbol
              (Close <$> drop (idx + 1 - limit) (take (idx + 1) df))
              (Close bar) (bar_time bar))
    | None => Raise IndexError
    end.
Proof.
  unfold fetch_market_snapshot. cbn [data current_idx].
  rewrite take_drop_commute.
  replace (idx + 1 - limit + (idx + 1 - (idx + 1 - limit)))%nat
    with (idx + 1)%nat by lia.
  rewrite !last_item_fmap.
  now destruct (last _).
Qed.

Lemma last_drop_take {A : Type} (xs : list A) (k idx : nat) (x : A) :
  (k ≤ idx)%nat → xs !! idx = Some x →
  last (drop k (take (idx + 1) xs)) = Some x.
Proof.
  intros Hk Hx. pose proof (lookup_lt_Some _ _ _ Hx) as Hlen.
  rewrite last_lookup, length_drop, length_take.
  rewrite lookup_drop, lookup_take_lt by lia.
  rewrite <- Hx. f_equal. lia.
Qed.

(** X15.  With the cursor on a row of the table and a limit of at least
    1, [fetch_market_snapshot] returns the closes of the last
    [min(limit, current_idx + 1)] rows up to and including the cursor's,
    oldest first and none after the cursor; the current price and the
    timestamp are those of the cursor's row, and the current price is the
    last of the prices. *)
Theorem fetch_market_snapshot_in_range
    (df : list Bar) (idx limit : nat) (symbol : string) (bar : Bar) :
  df !! idx = Some bar →
  (1 ≤ limit)%nat →
  ∃ market,
    fetch_market_snapshot (mkBacktestExchange df idx) symbol limit = Ok market
    ∧ ms_symbol market = symbol
    ∧ current_price market = Close bar
    ∧ ms_timestamp market = bar_time bar
    ∧ last (prices market) = Some (current_price market)
    ∧ length (prices market) = (limit `min` (idx + 1))%nat
    ∧ prices market = Close <$> drop (idx + 1 - limit) (take (idx + 1) df).
Proof.
  intros Hbar Hlimit. pose proof (lookup_lt_Some _ _ _ Hbar) as Hlen.
  rewrite fetch_market_snapshot_slice.
  rewrite (last_drop_take df _ idx bar) by (lia || exact Hbar).
  eexists. split; [reflexivity |]. cbn. repeat split.
  - rewrite fmap_last, (last_drop_take df _ idx bar) by (lia || exact Hbar).
    reflexivity.
  - rewrite length_fmap, length_drop, length_take. lia.
Qed.

Lemma fetch_market_snapshot_in_range_witness :
  ∃ market,
    fetch_market_snapshot (mkBacktestExchange scenario_bars 52) "BTC-USD" 3
      = Ok market
    ∧ ms_symbol market = "BTC-USD"
    ∧ current_price market = Close (mkBar 52 96)
    ∧ ms_timestamp market = bar_time (mkBar 52 96)
    ∧ last (prices market) = Some (current_price market)
    ∧ length (prices market) = (3 `min` (52 + 1))%nat
    ∧ prices market
      = Close <$> drop (52 + 1 - 3) (take (52 + 1) scenario_bars).
Proof.
  apply (fetch_market_snapshot_in_range scenario_bars 52 3 "BTC-USD"
           (mkBar 52 96)).
  - reflexivity.
  - lia.
Defined.

(** X16.  [fetch_market_snapshot] raises [IndexError] when the limit is 0
    or when the window starts at or after the end of the table (an empty
    table included). *)
Theorem fetch_market_snapshot_empty
    (df : list Bar) (idx limit : nat) (symbol : string) :
  limit = 0%nat ∨ (length df + limit ≤ idx + 1)%nat →
  fetch_market_snapshot (mkBacktestExchange df idx) symbol limit
  = Raise IndexError.
Proof.
  intros Hempty. rewrite fetch_market_snapshot_slice.
  rewrite drop_ge; [reflexivity |]. rewrite length_take. lia.
Qed.

Lemma fetch_market_snapshot_empty_witness :
  fetch_market_snapshot (mkBacktestExchange scenario_bars 52) "BTC-USD" 0
  = Raise IndexError.
Proof.
  apply (fetch_market_snapshot_empty scenario_bars 52 0 "BTC-USD").
  now left.
Defined.

(** X17.  With the cursor past the end of a table that is not empty,
    [execute_trade] raises [IndexError], while [fetch_market_snapshot],
    as long as its window still reaches the table, returns a snapshot
    whose current price and timestamp are those of the table's last row. *)
Theorem cursor_past_end
    (df : list Bar) (idx limit : nat) (symbol side : string) (size price : Q)
    (bar : Bar) :
  last df = Some bar →
  (length df ≤ idx)%nat →
  (idx + 1 < length df + limit)%nat →
  execute_trade (mkBacktestExchange df idx) symbol side size price
    = Raise IndexError
  ∧ ∃ market,
      fetch_market_snapshot (mkBacktestExchange df idx) symbol limit
        = Ok market
      ∧ current_price market = Close bar
      ∧ ms_timestamp market = bar_time bar.
Proof.
  intros Hlast Hpast Hlimit. split.
  - unfold execute_trade. cbn [data current_idx].
    now rewrite lookup_ge_None_2.
  - rewrite fetch_market_snapshot_slice, take_ge by lia.
    rewrite last_lookup in Hlast.
    assert (last (drop (idx + 1 - limit) df) = Some bar) as ->.
    { rewrite last_lookup, length_drop, lookup_drop, <- Hlast. f_equal.
      destruct df; [discriminate |]. cbn [length] in *. lia. }
    eexists. repeat split.
Qed.

Lemma cursor_past_end_witness :
  execute_trade (mkBacktestExchange scenario_bars 60) "BTC-USD" "buy" 1 96
    = Raise IndexError
  ∧ ∃ market,
      fetch_market_snapshot (mkBacktestExchange scenario_bars 60) "BTC-USD"
        100 = Ok market
      ∧ current_price market = Close (mkBar 52 96)
      ∧ ms_timestamp market = bar_time (mkBar 52 96).
Proof.
  apply (cursor_past_end scenario_bars 60 100 "BTC-USD" "buy" 1 96
           (mkBar 52 96)).
  - reflexivity.
  - cbn. lia.
  - cbn. lia.
Defined.

(** ** One bar of the loop, for any strategy *)

Section DriverFacts.
Context {S : Type} `{BaseStrategy S}.

Lemma apply_signal_curve (bt : Backtest S) signal cp timestamp :
  bt_equity_curve (apply_signal bt signal cp timestamp)
  = bt_equity_curve bt
    ++ [value (bt_portfolio (apply_signal bt signal cp timestamp)) cp].
Proof.
  unfold apply_signal. cbn.
  destruct (sig_action signal); [destruct (Qgeb _ _) | destruct (Qgeb _ _) |];
    reflexivity.
Qed.

Lemma apply_signal_trades (bt : Backtest S) signal cp timestamp :
  bt_trades (apply_signal bt signal cp timestamp) = bt_trades bt
  ∨ ∃ trade, bt_trades (apply_signal bt signal cp timestamp)
             = bt_trades bt ++ [trade].
Proof.
  unfold apply_signal. cbn.
  destruct (sig_action signal); [destruct (Qgeb _ _) | destruct (Qgeb _ _) |];
    cbn; eauto.
Qed.


Lemma driver_step_grows (bt bt' : Backtest S) market cp timestamp :
  driver_step bt market cp timestamp = Ok bt' →
  length (bt_equity_curve bt') = Datatypes.S (length (bt_equity_curve bt))
  ∧ bt_equity_curve bt `prefix_of` bt_equity_curve bt'
  ∧ bt_trades bt `prefix_of` bt_trades bt'
  ∧ (length (bt_trades bt') ≤ Datatypes.S (length (bt_trades bt)))%nat.
Proof.
  unfold driver_step.
  destruct (strategy_generate_signal _ _ _) as [strategy [signal |]];
    cbn [mbind Result_bind]; [| discriminate].
  intros [= <-]. rewrite apply_signal_curve, length_app. cbn [length].
  split; [cbn; lia |]. split; [now apply prefix_app_r |].
  destruct (apply_signal_trades
              (mkBacktest (bt_portfolio bt) (bt_trades bt)
                 (bt_equity_curve bt) strategy) signal cp timestamp)
    as [-> | (trade & ->)]; cbn [bt_trades].
  - split; [reflexivity | lia].
  - split; [now apply prefix_app_r |]. rewrite length_app. cbn. lia.
Qed.

(** X20.  A run of the loop that completes appends exactly one equity
    sample per bar and at most one trade per bar, and only appends: the
    equity curve and the trades it started from are prefixes of those it
    ends with. *)
Theorem one_sample_per_bar
    (df : list Bar) (symbol : string) (indices : list nat)
    (bt bt' : Backtest S) :
  backtest_loop df symbol bt indices = Ok bt' →
  length (bt_equity_curve bt')
  = (length (bt_equity_curve bt) + length indices)%nat
  ∧ bt_equity_curve bt `prefix_of` bt_equity_curve bt'
  ∧ bt_trades bt `prefix_of` bt_trades bt'
  ∧ (length (bt_trades bt') ≤ length (bt_trades bt) + length indices)%nat.
Proof.
  revert bt. induction indices as [| i rest IH]; intros bt Hrun;
    cbn [backtest_loop] in Hrun.
  - injection Hrun as <-. cbn. split; [lia |]. repeat split; [| | lia]; done.
  - destruct (loop_body df symbol bt i) as [bt1 |] eqn:Hbody;
      cbn [mbind Result_bind] in Hrun; [| discriminate].
    apply IH in Hrun as (Hlen & Hcurve & Htrades & Hcount).
    revert Hbody. unfold loop_body.
    destruct (df !! i); [| discriminate].
    destruct (fetch_market_snapshot _ _ _); cbn [mbind Result_bind];
      [| discriminate].
    intros Hstep.
    apply driver_step_grows in Hstep as (Hlen1 & Hcurve1 & Htrades1 & Hcount1).
    cbn [length]. split; [lia |].
    split; [etrans; eassumption |]. split; [etrans; eassumption | lia].
Qed.
End DriverFacts.


Lemma one_sample_per_bar_witness :
  ∃ bt' : Backtest (Heap * Strategy),
    backtest_loop scenario_bars "BTC-USD"
      (mkBacktest scenario_portfolio [] [] (init ∅ ∅)) [50; 51; 52]%nat
    = Ok bt'
    ∧ length (bt_equity_curve bt') = (0 + 3)%nat
    ∧ length (bt_trades bt') = 2%nat.
Proof.
  eexists. split; [vm_compute; reflexivity |]. split; [| reflexivity].
  apply (one_sample_per_bar scenario_bars "BTC-USD" [50; 51; 52]%nat
           (mkBacktest scenario_portfolio [] [] (init ∅ ∅))).
  vm_compute. reflexivity.
Defined.

(** ** The loop with the swing-reversion engine *)

(** X23.  On a table of at most 50 rows the loop has no bar to process:
    [run_backtest] returns without a report when the table is empty, and
    otherwise raises [IndexError] on the last element of the empty equity
    curve. *)
Theorem run_backtest_short_table (df : list Bar) :
  (length df ≤ 50)%nat →
  run_backtest df
  = match df with [] => Ok None | _ => Raise IndexError end.
Proof.
  intros Hlen. unfold run_backtest. destruct df as [| bar df]; [reflexivity |].
  replace (length (bar :: df) - 50)%nat with 0%nat by lia. reflexivity.
Qed.

Lemma run_backtest_short_table_witness :
  run_backtest (take 50 scenario_bars) = Raise IndexError.
Proof.
  apply (run_backtest_short_table (take 50 scenario_bars)).
  cbn. lia.
Defined.

(** * Properties on binary64 numbers *)

(** From here on the names are those of the module [Doubles]: the engine
    and the driver computing with floats as Python does. *)
Section Binary64.
Import Doubles.
#[local] Set Warnings "-inexact-float".
Local Open Scope float_scope.

(** ** Tests on floats *)

Lemma SFcompare_antisym (a b : spec_float) :
  SFcompare b a = option_map CompOpp (SFcompare a b).
Proof.
  destruct a as [sa | sa | | sa ma ea], b as [sb | sb | | sb mb eb];
    try destruct sa; try destruct sb; try reflexivity; cbn;
    rewrite (Z.compare_antisym ea eb);
    destruct (ea ?= eb)%Z; cbn; try reflexivity;
    pose proof (Pos.compare_cont_antisym ma mb Eq) as Hm; cbn in Hm;
    rewrite <- Hm; now destruct (Pos.compare_cont Eq ma mb).
Qed.

Lemma fdiv_computed (x y : float) :
  (y =? 0) = false → fdiv x y = Ok (x / y).
Proof. unfold fdiv. now intros ->. Qed.

Lemma fdiv_computed_inv (x y z : float) :
  fdiv x y = Ok z → (y =? 0) = false ∧ z = x / y.
Proof.
  unfold fdiv. destruct (y =? 0); [discriminate |].
  intros [= <-]. auto.
Qed.

Lemma positive_not_zero (x : float) : fgtb x 0 = true → (x =? 0) = false.
Proof.
  unfold fgtb. rewrite FloatAxioms.ltb_spec, FloatAxioms.eqb_spec.
  change (Prim2SF 0) with (S754_zero false).
  destruct (Prim2SF x) as [s | s | | s m e]; try destruct s; cbn; congruence.
Qed.

Lemma fgtb_not_fgeb (x y : float) : fgtb x y = true → fgeb y x = false.
Proof.
  unfold fgtb, fgeb. rewrite FloatAxioms.ltb_spec, FloatAxioms.leb_spec.
  unfold SFltb, SFleb. rewrite (SFcompare_antisym (Prim2SF y) (Prim2SF x)).
  destruct (SFcompare (Prim2SF y) (Prim2SF x)) as [[| |] |]; cbn; congruence.
Qed.

Lemma not_fgeb (x c : float) :
  fgeb x c = false → is_nan c = false → is_nan x = true ∨ (x <? c) = true.
Proof.
  unfold fgeb, is_nan.
  rewrite FloatAxioms.leb_spec, FloatAxioms.ltb_spec, !FloatAxioms.eqb_spec.
  unfold SFleb, SFltb, SFeqb.
  rewrite (SFcompare_antisym (Prim2SF c) (Prim2SF x)).
  destruct (Prim2SF x) as [sx | sx | | sx mx ex] eqn:Ex; [| | now left |];
    (destruct (Prim2SF c) as [sc | sc | | sc mc ec] eqn:Ec;
       [| | cbn; discriminate |]);
    match goal with
    | |- context [SFcompare ?a ?b] =>
        destruct (SFcompare a b) as [[| |] |] eqn:E; cbn;
          try discriminate; try (intros _ _; now right)
    end.
  all: exfalso; clear -E;
    repeat match goal with s : bool |- _ => destruct s end; discriminate.
Qed.

Lemma fgeb_refl (x : float) : fgtb x 0 = true → fgeb x x = true.
Proof.
  unfold fgtb, fgeb. rewrite FloatAxioms.ltb_spec, FloatAxioms.leb_spec.
  change (Prim2SF 0) with (S754_zero false). unfold SFltb, SFleb.
  destruct (Prim2SF x) as [s | s | | s m e]; try destruct s; cbn;
    try congruence.
  intros _. rewrite Z.compare_refl.
  change (Pos.compare_cont Eq m m) with (Pos.compare m m).
  now rewrite Pos.compare_refl.
Qed.

(** ** The model on concrete inputs *)

Example mean_exact_sum :
  mean [0.1; 0.2; 0.3] = Ok 0.2
  ∧ mean [1e308; 1e308; 1e308] = Ok 1e308
  ∧ mean (prices target_market) = Ok 2
  ∧ mean [1; infinity] = Ok infinity
  ∧ mean [] = Raise StatisticsError.
Proof. repeat split; vm_compute; reflexivity. Qed.

Example int_of_float_examples :
  int_of_float 2.9999999999999996 = Ok 2%Z
  ∧ int_of_float (-3.5) = Ok (-3)%Z
  ∧ int_of_float 1e22 = Ok 10000000000000000000000%Z
  ∧ int_of_float infinity = Raise OverflowError
  ∧ int_of_float nan = Raise ValueError.
Proof. repeat split; vm_compute; reflexivity. Qed.

Example fdiv_examples :
  fdiv 1 0 = Raise ZeroDivisionError
  ∧ fdiv 1 (-0) = Raise ZeroDivisionError
  ∧ fdiv infinity infinity = Ok nan
  ∧ fdiv 0.3 0.1 = Ok 2.9999999999999996.
Proof. repeat split; vm_compute; reflexivity. Qed.

(** The grid-buy scenario on floats: level [2] and the size
    [10000 * 0.275 / 97] as the code rounds it. *)
Example scenario_buy_computed :
  generate_signal {[1%positive := []]} (default_strategy 1 0)
    scenario_market scenario_portfolio
  = (default_strategy 1 0,
     Ok (mkSignal Buy (10000 * 0.275 / 97) (Some "Grid Buy Level 2"))).
Proof. vm_compute. reflexivity. Qed.

(** With no cash and no position the total equity is [0.0] and the
    exposure division raises, as in exact arithmetic. *)
Example zero_equity_computed :
  (generate_signal {[1%positive := []]} (default_strategy 1 0)
     scenario_market (mkPortfolio "BTC-USD" 0 0)).2
  = Raise ZeroDivisionError.
Proof. vm_compute. reflexivity. Qed.

Example init_defaults :
  init ∅ ∅ = Ok ({[1%positive := []]}, default_strategy 1 0).
Proof. vm_compute. reflexivity. Qed.

(** ** Exposure cap *)

Lemma decide_signal_buy_computed positions self cp deviation portfolio signal :
  decide_signal positions self cp deviation portfolio = Ok signal →
  sig_action signal = Buy →
  (deviation <? 0) = true
  ∧ grid_entry positions self cp deviation portfolio = Ok signal.
Proof.
  unfold decide_signal. intros Hd Hbuy.
  destruct (trailing_stop_hit positions self cp portfolio) as [[|] |] eqn:E;
    cbn [mbind Result_mbind] in Hd; try discriminate.
  - injection Hd as <-. discriminate.
  - destruct (_ && _).
    + injection Hd as <-. discriminate.
    + destruct (deviation <? 0); [auto |].
      injection Hd as <-. discriminate.
Qed.

Lemma grid_entry_buy_computed positions self cp deviation portfolio signal :
  grid_entry positions self cp deviation portfolio = Ok signal →
  sig_action signal = Buy →
  (cash portfolio + quantity portfolio * cp =? 0) = false
  ∧ fgeb (current_exposure portfolio cp) 0.55 = false.
Proof.
  unfold grid_entry, current_exposure. intros Hg Hbuy.
  destruct (fdiv (abs deviation) (grid_step_pct self)) as [steps |];
    cbn [mbind Result_mbind] in Hg; [| discriminate].
  destruct (int_of_float steps) as [level_idx |];
    cbn [mbind Result_mbind] in Hg; [| discriminate].
  destruct (level_idx <? 1)%Z.
  { injection Hg as <-. discriminate. }
  destruct (position_near self cp positions) as [[|] |];
    cbn [mbind Result_mbind] in Hg; try discriminate.
  { injection Hg as <-. discriminate. }
  destruct (fdiv (quantity portfolio * cp) _) as [exposure |] eqn:E3;
    cbn [mbind Result_mbind] in Hg; [| discriminate].
  apply fdiv_computed_inv in E3 as [Hne ->].
  destruct (fgeb _ 0.55) eqn:E4.
  { injection Hg as <-. discriminate. }
  auto.
Qed.

Lemma generate_signal_buy_computed h self self' market portfolio signal :
  generate_signal h self market portfolio = (self', Ok signal) →
  sig_action signal = Buy →
  ∃ sma deviation,
    mean (slice_from (prices market) (- ma_period self)) = Ok sma
    ∧ fdiv (current_price market - sma) sma = Ok deviation
    ∧ self' = update_trailing_high self (current_price market) portfolio
    ∧ (deviation <? 0) = true
    ∧ grid_entry (deref h (active_positions self')) self'
        (current_price market) deviation portfolio = Ok signal.
Proof.
  unfold generate_signal. intros Hg Hbuy.
  destruct (_ <? _)%Z.
  { injection Hg as _ <-. discriminate. }
  destruct (mean _) as [sma |]; [| discriminate].
  destruct (fdiv _ sma) as [deviation |] eqn:Hdiv; [| discriminate].
  injection Hg as <- Hd.
  apply decide_signal_buy_computed in Hd as [Hneg Hd]; [| exact Hbuy].
  exists sma, deviation. auto.
Qed.

(** C2, amended.  Whenever [generate_signal] returns a buy, the total
    equity it computed is not zero and the exposure it computed,
    [(quantity * price) / (cash + quantity * price)] with every operation
    rounded, failed the test [>= 0.55]: it is below the float [0.55] or it
    is a NaN.  So no buy is returned when the computed exposure is [0.55]
    or more, for any window, portfolio and engine state. *)
Theorem exposure_cap_computed
    (h : Heap) (self self' : Strategy) (market : MarketSnapshot)
    (portfolio : Portfolio) (signal : Signal) :
  generate_signal h self market portfolio = (self', Ok signal) →
  sig_action signal = Buy →
  (cash portfolio + quantity portfolio * current_price market =? 0) = false
  ∧ fgeb (current_exposure portfolio (current_price market)) 0.55 = false
  ∧ (is_nan (current_exposure portfolio (current_price market)) = true
     ∨ (current_exposure portfolio (current_price market) <? 0.55) = true).
Proof.
  intros Hg Hbuy.
  apply generate_signal_buy_computed in Hg
    as (sma & deviation & _ & _ & _ & _ & Hg); [| exact Hbuy].
  apply grid_entry_buy_computed in Hg as [Hne Hcap]; [| exact Hbuy].
  split; [exact Hne |]. split; [exact Hcap |].
  apply not_fgeb; [exact Hcap | reflexivity].
Qed.

Lemma exposure_cap_computed_witness :
  (cash scenario_portfolio
   + quantity scenario_portfolio * current_price scenario_market =? 0) = false
  ∧ fgeb (current_exposure scenario_portfolio (current_price scenario_market))
      0.55 = false
  ∧ (is_nan (current_exposure scenario_portfolio
               (current_price scenario_market)) = true
     ∨ (current_exposure scenario_portfolio (current_price scenario_market)
        <? 0.55) = true).
Proof.
  eapply (exposure_cap_computed {[1%positive := []]} (default_strategy 1 0) _
            scenario_market scenario_portfolio).
  - vm_compute. reflexivity.
  - reflexivity.
Defined.

(** C2 as worded fails: a buy does not imply an exposure below [0.55].
    With a position whose value overflows ([1e306] units at [35973.74],
    cash [1000]) the computed exposure is [inf / inf], a NaN: the test
    [>= 0.55] is false and a new engine with the default parameters returns
    a buy, although the exposure is above [0.55] (it is nearly [1]) and the
    computed ratio is not below [0.55] either. *)
Lemma buy_beyond_exposure_cap :
  (generate_signal {[1%positive := []]} (default_strategy 1 0)
     drop_market overflow_portfolio).2
  = Ok (mkSignal Buy (1000 / 35973.74) (Some "Grid Buy Level 2"))
  ∧ is_nan (current_exposure overflow_portfolio (current_price drop_market))
    = true
  ∧ (current_exposure overflow_portfolio (current_price drop_market) <? 0.55)
    = false
  ∧ ∃ exposure : Q,
      exact_exposure overflow_portfolio (current_price drop_market)
        = Some exposure
      ∧ (0.55 <= exposure)%Q.
Proof.
  split; [vm_compute; reflexivity |].
  split; [vm_compute; reflexivity |].
  split; [vm_compute; reflexivity |].
  eexists. split; [vm_compute; reflexivity |].
  apply Qle_bool_iff. vm_compute. reflexivity.
Qed.

(** Rounding alone is enough: at cash [8576.96], quantity
    [0.29140565065270146] and price [35973.74] the exposure is above [0.55]
    by less than [1e-16], the computed one is [0.5499999999999999], and the
    engine returns a buy. *)
Example buy_at_rounded_exposure :
  (generate_signal {[1%positive := []]} (default_strategy 1 0)
     drop_market threshold_portfolio).2
  = Ok (mkSignal Buy
          ((8576.96 + 0.29140565065270146 * 35973.74) * 0.275 / 35973.74)
          (Some "Grid Buy Level 2"))
  ∧ current_exposure threshold_portfolio (current_price drop_market)
    = 0.5499999999999999
  ∧ ∃ exposure : Q,
      exact_exposure threshold_portfolio (current_price drop_market)
        = Some exposure
      ∧ (0.55 <= exposure)%Q.
Proof.
  split; [vm_compute; reflexivity |].
  split; [vm_compute; reflexivity |].
  eexists. split; [vm_compute; reflexivity |].
  apply Qle_bool_iff. vm_compute. reflexivity.
Qed.

(** ** Exits *)

Lemma trailing_stop_hit_computed positions self cp portfolio :
  ∃ hit : bool, trailing_stop_hit positions self cp portfolio = Ok hit.
Proof.
  unfold trailing_stop_hit.
  destruct (fgtb (quantity portfolio) 0); [| eauto].
  destruct (fgtb (pysum _) 0) eqn:E; [| eauto].
  rewrite fdiv_computed by (apply positive_not_zero, E).
  cbn [mbind Result_mbind].
  repeat match goal with
         | |- context [if ?b then _ else _] => destruct b
         end; eauto.
Qed.

Lemma update_trailing_high_static self cp portfolio :
  set_trailing_high 0 (update_trailing_high self cp portfolio)
  = set_trailing_high 0 self.
Proof.
  unfold update_trailing_high.
  destruct (fgtb (quantity portfolio) 0); [destruct (fgtb cp _) |];
    reflexivity.
Qed.

Lemma update_trailing_high_take_profit_computed self cp portfolio :
  take_profit_above_sma_pct (update_trailing_high self cp portfolio)
  = take_profit_above_sma_pct self.
Proof.
  change (take_profit_above_sma_pct (update_trailing_high self cp portfolio))
    with (take_profit_above_sma_pct
            (set_trailing_high 0 (update_trailing_high self cp portfolio))).
  now rewrite update_trailing_high_static.
Qed.

(** C4.  On a window of at least [ma_period] prices whose mean [sma] is
    not zero, when the portfolio holds a position and the deviation as the
    code computes it, [(current_price - sma) / sma] with every operation
    rounded, exceeds [take_profit_above_sma_pct],
    [generate_signal] returns a sell of the whole quantity, whatever the
    ledger and the trailing high: the sell comes from the trailing stop or
    from the target, and both are sized as the whole position. *)
Theorem take_profit_exit_computed
    (h : Heap) (self : Strategy) (market : MarketSnapshot)
    (portfolio : Portfolio) (sma deviation : float) :
  (ma_period self ≤ Z.of_nat (length (prices market)))%Z →
  mean (slice_from (prices market) (- ma_period self)) = Ok sma →
  fdiv (current_price market - sma) sma = Ok deviation →
  fgtb (quantity portfolio) 0 = true →
  fgtb deviation (take_profit_above_sma_pct self) = true →
  ∃ self' reason,
    generate_signal h self market portfolio
      = (self', Ok (mkSignal Sell (quantity portfolio) (Some reason)))
    ∧ (reason = "Trailing Stop Hit" ∨ reason = "Mean Reversion: Target Hit").
Proof.
  intros Hlen Hmean Hdiv Hq Hdev. unfold generate_signal.
  destruct (Z.ltb_spec (Z.of_nat (length (prices market))) (ma_period self));
    [lia |].
  rewrite Hmean, Hdiv.
  unfold decide_signal.
  destruct (trailing_stop_hit_computed
              (deref h (active_positions
                 (update_trailing_high self (current_price market) portfolio)))
              (update_trailing_high self (current_price market) portfolio)
              (current_price market) portfolio) as [hit ->].
  cbn [mbind Result_mbind].
  destruct hit.
  - eexists _, _. split; [reflexivity | now left].
  - rewrite update_trailing_high_take_profit_computed, Hdev, Hq. cbn [andb].
    eexists _, _. split; [reflexivity | now right].
Qed.

Lemma take_profit_exit_computed_witness :
  ∃ self' reason,
    generate_signal ∅ (default_strategy 1 90) spike_market holding_portfolio
      = (self', Ok (mkSignal Sell (quantity holding_portfolio) (Some reason)))
    ∧ (reason = "Trailing Stop Hit" ∨ reason = "Mean Reversion: Target Hit").
Proof.
  eapply (take_profit_exit_computed ∅ (default_strategy 1 90) spike_market
            holding_portfolio).
  - apply Z.leb_le. reflexivity.
  - vm_compute. reflexivity.
  - vm_compute. reflexivity.
  - reflexivity.
  - reflexivity.
Defined.

(** The deviation is the computed one: at a window whose exact mean is a
    little under [2] and rounds to [2], ending at [3], the exact deviation
    exceeds [0.50], the computed one is [0.5], and the engine holds. *)
Example hold_at_rounded_deviation :
  generate_signal ∅ (default_strategy 1 0) target_market holding_portfolio
  = (default_strategy 1 3, Ok Signal_hold)
  ∧ mean (slice_from (prices target_market) (-24)) = Ok 2
  ∧ fdiv (current_price target_market - 2) 2 = Ok 0.5
  ∧ ∃ deviation : Q,
      exact_deviation 24 target_market = Some deviation
      ∧ (0.50 < deviation)%Q.
Proof.
  split; [vm_compute; reflexivity |].
  split; [vm_compute; reflexivity |].
  split; [vm_compute; reflexivity |].
  eexists. split; [vm_compute; reflexivity |].
  vm_compute. reflexivity.
Qed.

(** ** Signals the portfolio cannot honour *)

Lemma apply_signal_skipped
    {S : Type} `{BaseStrategy S}
    (bt : Backtest S) (signal : Signal) (current_price : float)
    (timestamp : Z) :
  (sig_action signal = Buy
     ∧ fgeb (cash (bt_portfolio bt)) (sig_size signal * current_price) = false)
  ∨ (sig_action signal = Sell
     ∧ fgeb (quantity (bt_portfolio bt)) (sig_size signal) = false)
  ∨ sig_action signal = Hold →
  apply_signal bt signal current_price timestamp
  = mkBacktest (bt_portfolio bt) (bt_trades bt)
      (bt_equity_curve bt ++ [value (bt_portfolio bt) current_price])
      (bt_strategy bt).
Proof.
  unfold apply_signal.
  intros [[-> ->] | [[-> ->] | ->]]; reflexivity.
Qed.

(** C6.  When the signal the driver receives is a buy whose cost
    [size * current_price], as the driver computes it, exceeds the cash, or
    a sell whose size exceeds the quantity held, the step
    completes without raising: the portfolio and the list of trades are
    unchanged, the strategy object is the one [generate_signal] left (for
    any strategy, so [on_trade] is not called), and the equity sample of
    the step is appended. *)
Theorem insufficient_funds_noop_computed
    {S : Type} `{BaseStrategy S}
    (bt : Backtest S) (market : MarketSnapshot) (current_price : float)
    (timestamp : Z) (strategy : S) (signal : Signal) :
  strategy_generate_signal (bt_strategy bt) market (bt_portfolio bt)
    = (strategy, Ok signal) →
  (sig_action signal = Buy
     ∧ fgtb (sig_size signal * current_price) (cash (bt_portfolio bt)) = true)
  ∨ (sig_action signal = Sell
     ∧ fgtb (sig_size signal) (quantity (bt_portfolio bt)) = true) →
  driver_step bt market current_price timestamp
  = Ok (mkBacktest (bt_portfolio bt) (bt_trades bt)
          (bt_equity_curve bt ++ [value (bt_portfolio bt) current_price])
          strategy).
Proof.
  intros Hsig Hshort. unfold driver_step. rewrite Hsig.
  cbn [mbind Result_mbind].
  rewrite apply_signal_skipped; [reflexivity |]. cbn [bt_portfolio].
  destruct Hshort as [[Hbuy Hgt] | [Hsell Hgt]]; apply fgtb_not_fgeb in Hgt;
    auto.
Qed.

Lemma insufficient_funds_noop_computed_witness :
  @driver_step nat (CountingStrategy (mkSignal Buy 1000 None))
    (mkBacktest threshold_cash [] [] 0%nat) scenario_market 97 0
  = Ok (mkBacktest threshold_cash [] [value threshold_cash 97] 0%nat).
Proof.
  apply (@insufficient_funds_noop_computed nat
           (CountingStrategy (mkSignal Buy 1000 None))
           (mkBacktest threshold_cash [] [] 0%nat) scenario_market 97 0
           0%nat (mkSignal Buy 1000 None)).
  - reflexivity.
  - left. split; reflexivity.
Defined.

(** The cost is the computed one: a buy of [0.17649951417226212] units at
    [42278.36] costs more than the cash [7462.11] by less than [1e-12]; the
    product rounds to [7462.11], and the driver fills the buy and calls
    [on_trade]. *)
Example buy_at_rounded_cost :
  @driver_step nat (CountingStrategy threshold_buy)
    (mkBacktest threshold_cash [] [] 0%nat) scenario_market 42278.36 0
  = Ok (mkBacktest
          (mkPortfolio "BTC-USD" 0 0.17649951417226212)
          [mkTrade 0 Buy 42278.36 0.17649951417226212 7462.11]
          [0.17649951417226212 * 42278.36] 1%nat)
  ∧ ∃ size price cash : Q,
      exact_value (sig_size threshold_buy) = Some size
      ∧ exact_value 42278.36 = Some price
      ∧ exact_value (Doubles.cash threshold_cash) = Some cash
      ∧ (cash < size * price)%Q.
Proof.
  split; [vm_compute; reflexivity |].
  eexists _, _, _. repeat (split; [vm_compute; reflexivity |]).
  vm_compute. reflexivity.
Qed.

(** * Further properties on binary64 numbers *)

(** ** What a returned signal tells *)

Lemma update_trailing_high_grid_step self cp portfolio :
  grid_step_pct (update_trailing_high self cp portfolio) = grid_step_pct self.
Proof.
  change (grid_step_pct (update_trailing_high self cp portfolio))
    with (grid_step_pct
            (set_trailing_high 0 (update_trailing_high self cp portfolio))).
  now rewrite update_trailing_high_static.
Qed.

Lemma update_trailing_high_ledger self cp portfolio :
  active_positions (update_trailing_high self cp portfolio)
  = active_positions self.
Proof.
  change (active_positions (update_trailing_high self cp portfolio))
    with (active_positions
            (set_trailing_high 0 (update_trailing_high self cp portfolio))).
  now rewrite update_trailing_high_static.
Qed.

Lemma buy_amount_static self cp portfolio price :
  buy_amount (update_trailing_high self cp portfolio) portfolio price
  = buy_amount self portfolio price.
Proof.
  change (buy_amount (update_trailing_high self cp portfolio) portfolio price)
    with (buy_amount
            (set_trailing_high 0 (update_trailing_high self cp portfolio))
            portfolio price).
  now rewrite update_trailing_high_static.
Qed.

Lemma position_near_static self cp portfolio price positions :
  position_near (update_trailing_high self cp portfolio) price positions
  = position_near self price positions.
Proof.
  induction positions as [| pos rest IH]; [reflexivity |].
  cbn [position_near]. rewrite IH, update_trailing_high_grid_step.
  reflexivity.
Qed.

Lemma grid_entry_buy_inv_computed
    positions self cp deviation portfolio signal :
  grid_entry positions self cp deviation portfolio = Ok signal →
  sig_action signal = Buy →
  ∃ steps level_idx,
    fdiv (abs deviation) (grid_step_pct self) = Ok steps
    ∧ int_of_float steps = Ok level_idx
    ∧ (1 ≤ level_idx)%Z
    ∧ position_near self cp positions = Ok false
    ∧ (buy_amount self portfolio cp <? 10) = false
    ∧ (cp =? 0) = false
    ∧ sig_size signal = buy_amount self portfolio cp / cp.
Proof.
  unfold grid_entry, buy_amount. intros Hg Hbuy.
  destruct (fdiv (abs deviation) (grid_step_pct self)) as [steps |]
    eqn:Hsteps;
    cbn [mbind Result_mbind] in Hg; [| discriminate].
  destruct (int_of_float steps) as [level_idx |] eqn:Hlevel;
    cbn [mbind Result_mbind] in Hg; [| discriminate].
  destruct (Z.ltb_spec level_idx 1).
  { injection Hg as <-. discriminate. }
  destruct (position_near self cp positions) as [[|] |] eqn:Hfar;
    cbn [mbind Result_mbind] in Hg; try discriminate.
  { injection Hg as <-. discriminate. }
  destruct (fdiv (quantity portfolio * cp) _) as [exposure |];
    cbn [mbind Result_mbind] in Hg; [| discriminate].
  destruct (fgeb _ 0.55).
  { injection Hg as <-. discriminate. }
  destruct (_ <? 10) eqn:Hmin.
  { injection Hg as <-. discriminate. }
  destruct (fdiv _ cp) as [size |] eqn:Hsize;
    cbn [mbind Result_mbind] in Hg; [| discriminate].
  apply fdiv_computed_inv in Hsize as [Hcp ->].
  injection Hg as <-. exists steps, level_idx.
  repeat (split; [first [reflexivity | assumption] |]). reflexivity.
Qed.

(** X1.  A buy is returned only when the deviation the code computes is
    negative and the grid level [int(abs(deviation) / grid_step_pct)] is at
    least [1]: at or above the SMA, and in the dead zone, the engine never
    buys. *)
Theorem buy_needs_grid_level
    (h : Heap) (self self' : Strategy) (market : MarketSnapshot)
    (portfolio : Portfolio) (signal : Signal) :
  generate_signal h self market portfolio = (self', Ok signal) →
  sig_action signal = Buy →
  ∃ sma deviation steps level_idx,
    mean (slice_from (prices market) (- ma_period self)) = Ok sma
    ∧ fdiv (current_price market - sma) sma = Ok deviation
    ∧ (deviation <? 0) = true
    ∧ fdiv (abs deviation) (grid_step_pct self) = Ok steps
    ∧ int_of_float steps = Ok level_idx
    ∧ (1 ≤ level_idx)%Z.
Proof.
  intros Hg Hbuy.
  apply generate_signal_buy_computed in Hg
    as (sma & deviation & Hmean & Hdiv & -> & Hneg & Hg); [| exact Hbuy].
  apply grid_entry_buy_inv_computed in Hg
    as (steps & level_idx & Hsteps & Hlevel & Hge & _); [| exact Hbuy].
  rewrite update_trailing_high_grid_step in Hsteps.
  exists sma, deviation, steps, level_idx. auto 10.
Qed.

Lemma buy_needs_grid_level_witness :
  ∃ sma deviation steps level_idx,
    mean (slice_from (prices scenario_market)
            (- ma_period (default_strategy 1 0))) = Ok sma
    ∧ fdiv (current_price scenario_market - sma) sma = Ok deviation
    ∧ (deviation <? 0) = true
    ∧ fdiv (abs deviation) (grid_step_pct (default_strategy 1 0)) = Ok steps
    ∧ int_of_float steps = Ok level_idx
    ∧ (1 ≤ level_idx)%Z.
Proof.
  eapply (buy_needs_grid_level {[1%positive := []]} (default_strategy 1 0) _
            scenario_market scenario_portfolio).
  - vm_compute. reflexivity.
  - reflexivity.
Defined.

(** X3.  Every buy is sized as [buy_amount_usd / current_price], for a
    current price that is not zero and a [buy_amount_usd] (the equity
    times [position_size_pct], capped by the cash) that the code did not
    find below the minimum trade size [10]. *)
Theorem buy_size_computed
    (h : Heap) (self self' : Strategy) (market : MarketSnapshot)
    (portfolio : Portfolio) (signal : Signal) :
  generate_signal h self market portfolio = (self', Ok signal) →
  sig_action signal = Buy →
  (current_price market =? 0) = false
  ∧ (buy_amount self portfolio (current_price market) <? 10) = false
  ∧ sig_size signal
    = buy_amount self portfolio (current_price market) / current_price market.
Proof.
  intros Hg Hbuy.
  apply generate_signal_buy_computed in Hg
    as (sma & deviation & _ & _ & -> & _ & Hg); [| exact Hbuy].
  apply grid_entry_buy_inv_computed in Hg
    as (steps & level_idx & _ & _ & _ & _ & Hmin & Hcp & Hsize);
    [| exact Hbuy].
  rewrite buy_amount_static in Hmin, Hsize. auto.
Qed.

Lemma buy_size_computed_witness :
  (current_price scenario_market =? 0) = false
  ∧ (buy_amount (default_strategy 1 0) scenario_portfolio
       (current_price scenario_market) <? 10) = false
  ∧ 10000 * 0.275 / 97
    = buy_amount (default_strategy 1 0) scenario_portfolio
        (current_price scenario_market) / current_price scenario_market.
Proof.
  apply (buy_size_computed {[1%positive := []]} (default_strategy 1 0)
           (default_strategy 1 0) scenario_market scenario_portfolio
           (mkSignal Buy (10000 * 0.275 / 97) (Some "Grid Buy Level 2"))).
  - vm_compute. reflexivity.
  - reflexivity.
Defined.

(** ** Anti-clustering *)

Lemma position_near_elem_computed self cp positions pos :
  pos ∈ positions → near_price self cp pos →
  position_near self cp positions ≠ Ok false.
Proof.
  intros Hin (d & Hd & Hnear).
  induction positions as [| p rest IH]; [inversion Hin |].
  cbn [position_near]. apply elem_of_cons in Hin as [<- | Hin].
  - rewrite Hd. cbn [mbind Result_mbind]. rewrite Hnear. discriminate.
  - destruct (fdiv _ (pos_price p)) as [d' |]; cbn [mbind Result_mbind];
      [| discriminate].
    destruct (d' <? _); [discriminate | now apply IH].
Qed.

(** X6.  While the ledger holds a position for which the code computes
    [abs(price - current_price) / price] under half a grid step, no call of
    [generate_signal] returns a buy. *)
Theorem no_buy_near_position_computed
    (h : Heap) (self self' : Strategy) (market : MarketSnapshot)
    (portfolio : Portfolio) (signal : Signal) (pos : Position) :
  pos ∈ deref h (active_positions self) →
  near_price self (current_price market) pos →
  generate_signal h self market portfolio = (self', Ok signal) →
  sig_action signal ≠ Buy.
Proof.
  intros Hin Hnear Hg Hbuy.
  apply generate_signal_buy_computed in Hg
    as (sma & deviation & _ & _ & -> & _ & Hg); [| exact Hbuy].
  apply grid_entry_buy_inv_computed in Hg
    as (steps & level_idx & _ & _ & _ & Hfar & _); [| exact Hbuy].
  rewrite update_trailing_high_ledger, position_near_static in Hfar.
  now apply (position_near_elem_computed self (current_price market) _ pos
               Hin Hnear).
Qed.

Lemma no_buy_near_position_computed_witness :
  sig_action
    (mkSignal Hold 0 (Some "Position already exists at this level"))
  ≠ Buy.
Proof.
  eapply (no_buy_near_position_computed
            {[1%positive := [mkPosition 97 28]]} (default_strategy 1 0) _
            scenario_market scenario_portfolio _ (mkPosition 97 28)).
  - replace (deref {[1%positive := [mkPosition 97 28]]}
               (active_positions (default_strategy 1 0)))
      with [mkPosition 97 28] by (vm_compute; reflexivity).
    apply list_elem_of_here.
  - eexists. split; vm_compute; reflexivity.
  - vm_compute. reflexivity.
Defined.

(** ** Sells *)

Lemma grid_entry_not_sell_computed
    positions self cp deviation portfolio signal :
  grid_entry positions self cp deviation portfolio = Ok signal →
  sig_action signal ≠ Sell ∧ sig_reason signal ≠ Some "Trailing Stop Hit".
Proof.
  unfold grid_entry. intros Hg.
  destruct (fdiv (abs deviation) _); cbn [mbind Result_mbind] in Hg;
    [| discriminate].
  destruct (int_of_float _); cbn [mbind Result_mbind] in Hg;
    [| discriminate].
  destruct (_ <? 1)%Z; [injection Hg as <-; split; discriminate |].
  destruct (position_near _ _ _) as [[|] |]; cbn [mbind Result_mbind] in Hg;
    [injection Hg as <-; split; discriminate | | discriminate].
  destruct (fdiv (quantity portfolio * cp) _); cbn [mbind Result_mbind] in Hg;
    [| discriminate].
  destruct (fgeb _ _); [injection Hg as <-; split; discriminate |].
  destruct (_ <? 10); [injection Hg as <-; split; discriminate |].
  destruct (fdiv _ cp); cbn [mbind Result_mbind] in Hg; [| discriminate].
  injection Hg as <-. split; cbn; discriminate.
Qed.

Lemma trailing_stop_hit_inv_computed positions self cp portfolio :
  trailing_stop_hit positions self cp portfolio = Ok true →
  fgtb (quantity portfolio) 0 = true
  ∧ positions ≠ []
  ∧ (cp <? trailing_high self * (1 - trailing_stop_callback_pct self)) = true.
Proof.
  unfold trailing_stop_hit.
  destruct (fgtb (quantity portfolio) 0); [| discriminate].
  destruct positions as [| pos rest]; [vm_compute; discriminate |].
  destruct (fgtb (pysum _) 0); [| discriminate].
  destruct (fdiv _ _); cbn [mbind Result_mbind]; [| discriminate].
  destruct (fgtb _ _); [| discriminate].
  destruct (cp <? _); [auto | discriminate].
Qed.

Lemma decide_signal_sell_computed positions self cp deviation portfolio signal :
  decide_signal positions self cp deviation portfolio = Ok signal →
  sig_action signal = Sell ∨ sig_reason signal = Some "Trailing Stop Hit" →
  fgtb (quantity portfolio) 0 = true
  ∧ ((trailing_stop_hit positions self cp portfolio = Ok true
      ∧ signal = mkSignal Sell (quantity portfolio)
                   (Some "Trailing Stop Hit"))
     ∨ (trailing_stop_hit positions self cp portfolio = Ok false
        ∧ fgtb deviation (take_profit_above_sma_pct self) = true
        ∧ signal = mkSignal Sell (quantity portfolio)
                     (Some "Mean Reversion: Target Hit"))).
Proof.
  unfold decide_signal. intros Hd Hsell.
  destruct (trailing_stop_hit positions self cp portfolio) as [[|] |] eqn:E;
    cbn [mbind Result_mbind] in Hd; [| | discriminate].
  - injection Hd as <-.
    apply trailing_stop_hit_inv_computed in E as (Hq & _). auto.
  - destruct (fgtb deviation _) eqn:Hdev; cbn [andb] in Hd.
    + destruct (fgtb (quantity portfolio) 0) eqn:Hq.
      * injection Hd as <-. auto.
      * destruct (deviation <? 0).
        -- apply grid_entry_not_sell_computed in Hd as [H1 H2].
           destruct Hsell; contradiction.
        -- injection Hd as <-. destruct Hsell; discriminate.
    + destruct (deviation <? 0).
      * apply grid_entry_not_sell_computed in Hd as [H1 H2].
        destruct Hsell; contradiction.
      * injection Hd as <-. destruct Hsell; discriminate.
Qed.

Lemma generate_signal_sell_computed h self self' market portfolio signal :
  generate_signal h self market portfolio = (self', Ok signal) →
  sig_action signal = Sell ∨ sig_reason signal = Some "Trailing Stop Hit" →
  self' = update_trailing_high self (current_price market) portfolio
  ∧ ∃ deviation,
      decide_signal (deref h (active_positions self')) self'
        (current_price market) deviation portfolio = Ok signal.
Proof.
  unfold generate_signal. intros Hg Hsell.
  destruct (_ <? _)%Z.
  { injection Hg as _ <-. destruct Hsell; discriminate. }
  destruct (mean _) as [sma |]; [| discriminate].
  destruct (fdiv _ sma) as [deviation |]; [| discriminate].
  injection Hg as <- Hd. eauto.
Qed.

(** X7.  A signal whose reason is "Trailing Stop Hit" is a sell of the
    whole quantity, returned only when the portfolio holds a position, the
    ledger is not empty, and the current price is, as computed, below the
    trailing high left by the call times
    [1 - trailing_stop_callback_pct]. *)
Theorem trailing_stop_requires_computed
    (h : Heap) (self self' : Strategy) (market : MarketSnapshot)
    (portfolio : Portfolio) (signal : Signal) :
  generate_signal h self market portfolio = (self', Ok signal) →
  sig_reason signal = Some "Trailing Stop Hit" →
  signal = mkSignal Sell (quantity portfolio) (Some "Trailing Stop Hit")
  ∧ fgtb (quantity portfolio) 0 = true
  ∧ deref h (active_positions self) ≠ []
  ∧ (current_price market
     <? trailing_high self' * (1 - trailing_stop_callback_pct self')) = true.
Proof.
  intros Hg Hreason.
  apply generate_signal_sell_computed in Hg as (-> & deviation & Hd);
    [| now right].
  apply decide_signal_sell_computed in Hd
    as (Hq & [(Hhit & ->) | (_ & _ & ->)]); [| discriminate | now right].
  apply trailing_stop_hit_inv_computed in Hhit as (_ & Hne & Hlt).
  rewrite update_trailing_high_ledger in Hne. auto.
Qed.

Lemma trailing_stop_requires_computed_witness :
  mkSignal Sell 28 (Some "Trailing Stop Hit")
  = mkSignal Sell (quantity holding_portfolio) (Some "Trailing Stop Hit")
  ∧ fgtb (quantity holding_portfolio) 0 = true
  ∧ deref {[1%positive := [mkPosition 97 28]]}
      (active_positions (default_strategy 1 100)) ≠ []
  ∧ (current_price dip_market
     <? trailing_high (default_strategy 1 100)
        * (1 - trailing_stop_callback_pct (default_strategy 1 100))) = true.
Proof.
  apply (trailing_stop_requires_computed
           {[1%positive := [mkPosition 97 28]]} (default_strategy 1 100)
           (default_strategy 1 100) dip_market holding_portfolio
           (mkSignal Sell 28 (Some "Trailing Stop Hit"))).
  - vm_compute. reflexivity.
  - reflexivity.
Defined.

(** X21.  Every sell [generate_signal] returns is filled by the driver,
    whatever price the driver read for the bar: the sell is sized as the
    whole quantity of a portfolio that holds one, so the test
    [quantity >= size] passes; the trade is recorded with its revenue,
    the portfolio is updated, [on_trade] is called and the equity sample is
    appended. *)
Theorem sell_is_filled
    (h : Heap) (self self' : Strategy) (market : MarketSnapshot)
    (portfolio : Portfolio) (signal : Signal)
    (trades : list Trade) (equity_curve : list float)
    (current_price : float) (timestamp : Z) :
  generate_signal h self market portfolio = (self', Ok signal) →
  sig_action signal = Sell →
  let revenue := quantity portfolio * current_price in
  let portfolio' :=
    mkPortfolio (pf_symbol portfolio) (cash portfolio + revenue)
      (quantity portfolio - quantity portfolio) in
  driver_step (mkBacktest portfolio trades equity_curve (h, self)) market
    current_price timestamp
  = Ok (mkBacktest portfolio'
          (trades ++
             [mkTrade timestamp Sell current_price (quantity portfolio)
                revenue])
          (equity_curve ++ [value portfolio' current_price])
          (on_trade h self' signal current_price (quantity portfolio)
             timestamp)).
Proof.
  intros Hg Hsell revenue portfolio'.
  unfold driver_step.
  cbn [strategy_generate_signal SwingReversion_BaseStrategy bt_strategy
       bt_portfolio bt_trades bt_equity_curve fst snd].
  rewrite Hg. cbn [mbind Result_mbind].
  apply generate_signal_sell_computed in Hg as (_ & deviation & Hd);
    [| now left].
  apply decide_signal_sell_computed in Hd as (Hq & Hsig); [| now left].
  assert (Hsize : sig_size signal = quantity portfolio)
    by (destruct Hsig as [(_ & ->) | (_ & _ & ->)]; reflexivity).
  unfold apply_signal.
  cbn [bt_strategy bt_portfolio bt_trades bt_equity_curve].
  rewrite Hsell, Hsize, (fgeb_refl _ Hq).
  reflexivity.
Qed.

Lemma sell_is_filled_witness :
  driver_step
    (mkBacktest holding_portfolio [] [] (∅, default_strategy 1 90))
    spike_market 300 7
  = Ok (mkBacktest (mkPortfolio "BTC-USD" (7250 + 28 * 300) 0)
          [mkTrade 7 Sell 300 28 (28 * 300)]
          [7250 + 28 * 300 + 0 * 300]
          (on_trade ∅ (default_strategy 1 300)
             (mkSignal Sell 28 (Some "Mean Reversion: Target Hit")) 300 28 7)).
Proof.
  apply (sell_is_filled ∅ (default_strategy 1 90) (default_strategy 1 300)
           spike_market holding_portfolio
           (mkSignal Sell 28 (Some "Mean Reversion: Target Hit")) [] [] 300 7).
  - vm_compute. reflexivity.
  - reflexivity.
Defined.

(** ** When [generate_signal] returns *)

Lemma int_of_float_finite (x : float) :
  is_finite x = true → ∃ n, int_of_float x = Ok n.
Proof.
  unfold is_finite, is_nan, is_infinity, int_of_float.
  rewrite !FloatAxioms.eqb_spec, abs_spec.
  change (Prim2SF infinity) with (S754_infinity false).
  destruct (Prim2SF x) as [s | s | | s m e]; try destruct s; cbn;
    try discriminate; eauto.
Qed.

Lemma position_near_returns_computed self cp positions :
  Forall (λ pos, (pos_price pos =? 0) = false) positions →
  ∃ near : bool, position_near self cp positions = Ok near.
Proof.
  induction 1 as [| pos rest Hpos _ IH]; cbn [position_near]; [eauto |].
  rewrite fdiv_computed by exact Hpos. cbn [mbind Result_mbind].
  destruct (_ <? _); eauto.
Qed.

Lemma grid_entry_returns_computed positions self cp deviation portfolio :
  (grid_step_pct self =? 0) = false →
  is_finite (abs deviation / grid_step_pct self) = true →
  Forall (λ pos, (pos_price pos =? 0) = false) positions →
  (cash portfolio + quantity portfolio * cp =? 0) = false →
  (cp =? 0) = false →
  ∃ signal, grid_entry positions self cp deviation portfolio = Ok signal.
Proof.
  intros Hstep Hfin Hpos Heq Hcp. unfold grid_entry.
  rewrite (fdiv_computed _ _ Hstep). cbn [mbind Result_mbind].
  destruct (int_of_float_finite _ Hfin) as [level_idx ->].
  cbn [mbind Result_mbind].
  destruct (level_idx <? 1)%Z; [eauto |].
  destruct (position_near_returns_computed self cp positions Hpos)
    as [near ->].
  cbn [mbind Result_mbind]. destruct near; [eauto |].
  rewrite (fdiv_computed _ _ Heq). cbn [mbind Result_mbind].
  destruct (fgeb _ 0.55); [eauto |].
  destruct (_ <? 10); [eauto |].
  rewrite (fdiv_computed _ _ Hcp). cbn [mbind Result_mbind]. eauto.
Qed.

(** X9.  [generate_signal] returns a signal and raises nothing when the
    window has a mean, and the mean, [grid_step_pct], the price of every
    ledger entry, the total equity [cash + quantity * current_price] and
    the current price are not zero, and the quotient
    [abs(deviation) / grid_step_pct] is a finite number. *)
Theorem generate_signal_returns_computed
    (h : Heap) (self : Strategy) (market : MarketSnapshot)
    (portfolio : Portfolio) (sma : float) :
  mean (slice_from (prices market) (- ma_period self)) = Ok sma →
  (sma =? 0) = false →
  (grid_step_pct self =? 0) = false →
  is_finite (abs ((current_price market - sma) / sma) / grid_step_pct self)
    = true →
  Forall (λ pos, (pos_price pos =? 0) = false)
    (deref h (active_positions self)) →
  (cash portfolio + quantity portfolio * current_price market =? 0) = false →
  (current_price market =? 0) = false →
  ∃ signal, (generate_signal h self market portfolio).2 = Ok signal.
Proof.
  intros Hmean Hsma Hstep Hfin Hpos Heq Hcp. unfold generate_signal.
  destruct (_ <? _)%Z; [eauto |].
  rewrite Hmean, (fdiv_computed _ _ Hsma). cbn [snd].
  unfold decide_signal.
  destruct (trailing_stop_hit_computed
              (deref h (active_positions
                 (update_trailing_high self (current_price market) portfolio)))
              (update_trailing_high self (current_price market) portfolio)
              (current_price market) portfolio) as [hit ->].
  cbn [mbind Result_mbind].
  destruct hit; [eauto |].
  destruct (_ && _); [eauto |].
  destruct (_ <? 0); [| eauto].
  apply grid_entry_returns_computed;
    rewrite ?update_trailing_high_grid_step, ?update_trailing_high_ledger;
    assumption.
Qed.

Lemma generate_signal_returns_computed_witness :
  ∃ signal,
    (generate_signal {[1%positive := [mkPosition 97 28]]}
       (default_strategy 1 0) scenario_market scenario_portfolio).2
    = Ok signal.
Proof.
  apply (generate_signal_returns_computed
           {[1%positive := [mkPosition 97 28]]} (default_strategy 1 0)
           scenario_market scenario_portfolio 100).
  - vm_compute. reflexivity.
  - reflexivity.
  - reflexivity.
  - vm_compute. reflexivity.
  - replace (deref {[1%positive := [mkPosition 97 28]]}
               (active_positions (default_strategy 1 0)))
      with [mkPosition 97 28] by (vm_compute; reflexivity).
    repeat constructor.
  - reflexivity.
  - reflexivity.
Defined.

(** A level quotient that is no finite number: with a [grid_step_pct] of
    [1e-320] the quotient overflows and [int] raises [OverflowError]. *)
Example int_raises_on_overflow :
  (generate_signal {[1%positive := []]}
     (mkStrategy 24 1e-320 2 0.275 0.15 0.50 0.025 0.035 1 None 0)
     scenario_market scenario_portfolio).2
  = Raise OverflowError.
Proof. vm_compute. reflexivity. Qed.

(** ** Drawdown *)

Lemma positive_above (x y : float) :
  fgtb x 0 = true → fgtb y x = true → fgtb y 0 = true.
Proof.
  unfold fgtb. rewrite !FloatAxioms.ltb_spec.
  change (Prim2SF 0) with (S754_zero false). unfold SFltb.
  destruct (Prim2SF x) as [sx | sx | | sx mx ex],
           (Prim2SF y) as [sy | sy | | sy my ey];
    try destruct sx; try destruct sy; cbn; congruence.
Qed.

Lemma not_negative_above (x y : float) :
  fgeb x 0 = true → fgtb y x = true → fgeb y 0 = true.
Proof.
  unfold fgtb, fgeb. rewrite FloatAxioms.ltb_spec, !FloatAxioms.leb_spec.
  change (Prim2SF 0) with (S754_zero false). unfold SFltb, SFleb.
  destruct (Prim2SF x) as [sx | sx | | sx mx ex],
           (Prim2SF y) as [sy | sy | | sy my ey];
    try destruct sx; try destruct sy; cbn; congruence.
Qed.

Lemma drawdown_loop_returns (peak max_drawdown : float)
    (equity_curve : list float) :
  fgtb peak 0 = true → fgeb max_drawdown 0 = true →
  ∃ dd, drawdown_loop peak max_drawdown equity_curve = Ok dd
        ∧ fgeb dd 0 = true.
Proof.
  revert peak max_drawdown.
  induction equity_curve as [| eq rest IH]; intros peak md Hpeak Hmd.
  { now exists md. }
  cbn [drawdown_loop].
  assert (Hpeak' : fgtb (if fgtb eq peak then eq else peak) 0 = true).
  { destruct (fgtb eq peak) eqn:E; [| exact Hpeak].
    exact (positive_above _ _ Hpeak E). }
  rewrite fdiv_computed by (apply positive_not_zero, Hpeak').
  cbn [mbind Result_mbind]. apply IH; [exact Hpeak' |].
  destruct (fgtb _ md) eqn:E; [| exact Hmd].
  exact (not_negative_above _ _ Hmd E).
Qed.

(** X24.  The drawdown loop never raises, whatever floats the equity curve
    holds (the peak starts at [10000.0] and only grows, so it is never
    zero), and its result is not negative. *)
Theorem drawdown_never_raises (equity_curve : list float) :
  ∃ dd, max_drawdown equity_curve = Ok dd ∧ fgeb dd 0 = true.
Proof.
  apply drawdown_loop_returns; reflexivity.
Qed.

(** A drawdown of exactly [1.0] from a positive equity. *)
Example drawdown_rounds_to_one : max_drawdown [1e-13] = Ok 1.
Proof. vm_compute. reflexivity. Qed.

End Binary64.
